(** * generate_graphs.py: the metrics extractor and the endpoint ranking

    A shallow embedding of [extract_performance_data] and of the ranking
    [sorted(endpoints.items(), key=lambda x: x[1]['p95'], reverse=True)]
    used by [create_all_endpoints_comparison] and
    [print_performance_summary].

    Modelling conventions.
    - A value produced by [json.load] is a [json] term.  A Python [dict]
      keeps its keys in insertion order, so an object is an association
      list; [dict_get] reads the first binding of a key and [dict_set]
      overwrites a binding in place or appends a new one, as
      [d[k] = v] does.
    - JSON numbers are rationals ([Q]).  Python integers and finite
      floats embed in [Q]; [/] is the exact quotient, compared with
      [==] ([Qeq]), and raises [OverflowError] where the quotient of an
      integer is too large for a float.  Rounding of binary floats, the
      non-standard literals [NaN] and [Infinity], and the infinity that
      [json.load] makes of a float literal beyond the range of a double
      are outside the model.
    - A string is the sequence of the bytes of its UTF-8 encoding, on
      which [startswith] and [replace] with an ASCII pattern act as they
      do on code points.
    - Python exceptions are the constructors of [exn]; a function that
      can raise returns a [result]. *)

From Stdlib Require Import String Ascii List Bool Arith ZArith QArith Qabs Lia.
From Stdlib Require Import Permutation Sorted Lqa.
Import ListNotations.

Set Warnings "-register-all".

Local Open Scope string_scope.
Local Open Scope list_scope.

(** ** Python values *)

Inductive json : Type :=
| JNull
| JBool (b : bool)
| JNum (q : Q)
| JStr (s : string)
| JList (l : list json)
| JDict (kvs : list (string * json)).

Definition dict (V : Type) : Type := list (string * V).

Inductive exn : Type :=
| KeyError
| AttributeError
| TypeError
| OverflowError.

Inductive result (A : Type) : Type :=
| Ok (a : A)
| Raise (e : exn).

Arguments Ok {A} a.
Arguments Raise {A} e.

Definition bind {A B : Type} (r : result A) (k : A -> result B) : result B :=
  match r with
  | Ok a => k a
  | Raise e => Raise e
  end.

Notation "x <- r ;; k" := (bind r (fun x => k))
  (at level 61, r at next level, right associativity).

Definition raises {A : Type} (e : exn) (r : result A) : bool :=
  match r, e with
  | Raise KeyError, KeyError => true
  | Raise AttributeError, AttributeError => true
  | Raise TypeError, TypeError => true
  | _, _ => false
  end.

(** ** Dictionaries in insertion order *)

Fixpoint dict_get {V : Type} (k : string) (d : dict V) : option V :=
  match d with
  | [] => None
  | (k', v) :: d' => if String.eqb k k' then Some v else dict_get k d'
  end.

(** [d[k] = v]: an existing key keeps its position and takes the new
    value, a new key goes to the end. *)
Fixpoint dict_set {V : Type} (k : string) (v : V) (d : dict V) : dict V :=
  match d with
  | [] => [(k, v)]
  | (k', v') :: d' =>
      if String.eqb k k' then (k, v) :: d' else (k', v') :: dict_set k v d'
  end.

Definition keys {V : Type} (d : dict V) : list string := map fst d.

(** ** The operations of Python the extractor uses *)

(** [bool(v)], as tested by [if not data] and [if values]. *)
Definition truthy (v : json) : bool :=
  match v with
  | JNull => false
  | JBool b => b
  | JNum q => negb (Qeq_bool q 0)
  | JStr s => negb (String.eqb s EmptyString)
  | JList l => match l with [] => false | _ => true end
  | JDict kvs => match kvs with [] => false | _ => true end
  end.

(** [v.get(k, default)]: only a dict has the method. *)
Definition py_get (v : json) (k : string) (default : json) : result json :=
  match v with
  | JDict kvs =>
      Ok (match dict_get k kvs with Some x => x | None => default end)
  | _ => Raise AttributeError
  end.

(** [v.items()]. *)
Definition py_items (v : json) : result (list (string * json)) :=
  match v with
  | JDict kvs => Ok kvs
  | _ => Raise AttributeError
  end.

(** The least magnitude that no longer rounds to a finite double: the
    midpoint of the largest double, [2^1024 - 2^971], and [2^1024]. *)
Definition float_limit : Q := inject_Z (2 ^ 1024 - 2 ^ 970).

(** The quotient is "too large for a float". *)
Definition overflows (q : Q) : bool := Qle_bool float_limit (Qabs q).

Arguments overflows q : simpl never.

(** [v / d] for an integer constant [d >= 1], here 1000; [bool] is a
    subclass of [int].  A number is an integer or a finite float; the
    quotient of a finite float stays below [float_limit], so that a
    quotient at or beyond it is the quotient of an integer, for which
    Python raises [OverflowError]. *)
Definition py_truediv (v : json) (d : Q) : result json :=
  match v with
  | JNum q => if overflows (q / d) then Raise OverflowError else Ok (JNum (q / d))
  | JBool b => Ok (JNum ((if b then 1 else 0) / d))
  | _ => Raise TypeError
  end.

(** [s.startswith(p)]. *)
Definition startswith (s p : string) : bool := String.prefix p s.

(** [s.replace(old, new)] for a non-empty [old]: every non-overlapping
    occurrence of [old], found from the left, is replaced.  [skip] counts
    the characters of a matched occurrence still to be dropped. *)
Fixpoint replace_from (old new : string) (skip : nat) (s : string) : string :=
  match s with
  | EmptyString => EmptyString
  | String c s' =>
      match skip with
      | S k => replace_from old new k s'
      | O =>
          if String.prefix old s
          then new ++ replace_from old new (String.length old - 1) s'
          else String c (replace_from old new 0 s')
      end
  end.

Definition replace (s old new : string) : string := replace_from old new 0 s.

(** ** The derived structures *)

Record endpoint_stats : Type := mk_endpoint_stats {
  ep_avg : json;
  ep_min : json;
  ep_med : json;
  ep_p90 : json;
  ep_p95 : json;
  ep_p99 : json;
  ep_max : json
}.

Record overall_stats : Type := mk_overall_stats {
  p50 : json;
  p90 : json;
  p95 : json;
  p99 : json;
  avg : json;
  min : json;
  max : json;
  total_requests : json;
  requests_per_sec : json;
  error_rate : json;
  duration_s : json;
  vus : json;
  vus_max : json;
  checks_pass_rate : json;
  checks_total : json;
  checks_passed : json;
  checks_failed : json
}.

Record performance : Type := mk_performance {
  overall : overall_stats;
  endpoints : dict endpoint_stats
}.

Definition zero : json := JNum 0.
Definition empty : json := JDict [].

Definition latency_prefix : string := "latency_ms_".

(** ** extract_performance_data *)

(** [metrics.get(name, {}).get('values', {})]. *)
Definition metric_values (metrics : json) (name : string) : result json :=
  m <- py_get metrics name empty ;;
  py_get m "values" empty.

(** The dict literal assigned to [endpoint_metrics[endpoint]]. *)
Definition endpoint_record (values : json) : result endpoint_stats :=
  a <- py_get values "avg" zero ;;
  b <- py_get values "min" zero ;;
  c <- py_get values "med" zero ;;
  d <- py_get values "p(90)" zero ;;
  e <- py_get values "p(95)" zero ;;
  f <- py_get values "p(99)" zero ;;
  g <- py_get values "max" zero ;;
  Ok (mk_endpoint_stats a b c d e f g).

(** The endpoint identifier, [metric_name.replace('latency_ms_', '')]. *)
Definition endpoint_of (metric_name : string) : string :=
  replace metric_name latency_prefix EmptyString.

(** One iteration of the loop over [metrics.items()]. *)
Definition endpoint_step (endpoint_metrics : dict endpoint_stats)
    (item : string * json) : result (dict endpoint_stats) :=
  let (metric_name, metric_data) := item in
  if startswith metric_name latency_prefix then
    let endpoint := endpoint_of metric_name in
    values <- py_get metric_data "values" empty ;;
    if truthy values then
      r <- endpoint_record values ;;
      Ok (dict_set endpoint r endpoint_metrics)
    else Ok endpoint_metrics
  else Ok endpoint_metrics.

(** The loop, started from [endpoint_metrics]. *)
Fixpoint endpoint_loop (items : list (string * json))
    (endpoint_metrics : dict endpoint_stats) : result (dict endpoint_stats) :=
  match items with
  | [] => Ok endpoint_metrics
  | item :: rest =>
      acc <- endpoint_step endpoint_metrics item ;;
      endpoint_loop rest acc
  end.

Definition extract_performance_data (data : json)
    : result (option performance) :=
  if negb (truthy data) then Ok None else
  metrics <- py_get data "metrics" empty ;;
  http_duration <- metric_values metrics "http_req_duration" ;;
  http_reqs <- metric_values metrics "http_reqs" ;;
  http_failed <- metric_values metrics "http_req_failed" ;;
  vus_v <- metric_values metrics "vus" ;;
  checks <- metric_values metrics "checks" ;;
  items <- py_items metrics ;;
  endpoint_metrics <- endpoint_loop items [] ;;
  o1 <- py_get http_duration "med" zero ;;
  o2 <- py_get http_duration "p(90)" zero ;;
  o3 <- py_get http_duration "p(95)" zero ;;
  o4 <- py_get http_duration "p(99)" zero ;;
  o5 <- py_get http_duration "avg" zero ;;
  o6 <- py_get http_duration "min" zero ;;
  o7 <- py_get http_duration "max" zero ;;
  o8 <- py_get http_reqs "count" zero ;;
  o9 <- py_get http_reqs "rate" zero ;;
  o10 <- py_get http_failed "rate" zero ;;
  state <- py_get data "state" empty ;;
  ms <- py_get state "testRunDurationMs" zero ;;
  o11 <- py_truediv ms 1000 ;;
  o12 <- py_get vus_v "value" zero ;;
  o13 <- py_get vus_v "max" zero ;;
  o14 <- py_get checks "rate" zero ;;
  o15 <- py_get checks "count" zero ;;
  o16 <- py_get checks "passes" zero ;;
  o17 <- py_get checks "fails" zero ;;
  Ok (Some (mk_performance
              (mk_overall_stats o1 o2 o3 o4 o5 o6 o7 o8 o9 o10 o11
                                o12 o13 o14 o15 o16 o17)
              endpoint_metrics)).

(** ** The ranking of the endpoint renderer and of the console summary *)

(** The value of a number under [<]; [bool] counts as [int]. *)
Definition number (v : json) : option Q :=
  match v with
  | JNum q => Some q
  | JBool b => Some (if b then 1 else 0)
  | _ => None
  end.

Definition Qltb (x y : Q) : bool := negb (Qle_bool y x).

Section Sorted.
Context {A : Type} (key : A -> Q).

(** [x] stood before every element of [l]: it goes in front of the
    first element whose key is not smaller than its own. *)
Fixpoint insert (x : A) (l : list A) : list A :=
  match l with
  | [] => [x]
  | y :: l' =>
      if Qltb (key y) (key x) then y :: insert x l' else x :: y :: l'
  end.

(** [list.sort] is stable and compares keys with [<] only, which
    fixes its result on keys that [<] orders totally. *)
Definition stable_sort (l : list A) : list A := fold_right insert [] l.

(** [sorted(l, key=key, reverse=reverse)]: with [reverse] the list is
    reversed, sorted upwards and reversed again, so that equal keys
    keep their order. *)
Definition sorted (reverse : bool) (l : list A) : list A :=
  if reverse then rev (stable_sort (rev l)) else stable_sort l.
End Sorted.

(** The sort key [lambda x: x[1]['p95']], for a numeric field. *)
Definition p95_key (x : string * endpoint_stats) : Q :=
  match number (ep_p95 (snd x)) with
  | Some q => q
  | None => 0
  end.

Definition numeric_p95 (eps : dict endpoint_stats) : bool :=
  forallb (fun x => match number (ep_p95 (snd x)) with
                    | Some _ => true
                    | None => false
                    end) eps.

(** [sorted(endpoints.items(), key=lambda x: x[1]['p95'], reverse=True)].
    The order Python gives to values that are not numbers is not
    modelled: the result is [None] there. *)
Definition sorted_endpoints (eps : dict endpoint_stats)
    : option (list (string * endpoint_stats)) :=
  if numeric_p95 eps then Some (sorted p95_key true eps) else None.

(** The slice [[:5]] of [print_performance_summary]. *)
Definition top5 (eps : dict endpoint_stats)
    : option (list (string * endpoint_stats)) :=
  option_map (firstn 5) (sorted_endpoints eps).

(** ** The Raw Report of the data model

    A mapping with an optional [metrics] mapping from metric names to
    entries with an optional [values] mapping of numbers, and an optional
    [state] mapping with an optional number [testRunDurationMs]. *)

Definition is_number (v : json) : bool :=
  match v with JNum _ => true | _ => false end.

Definition values_shape (v : json) : bool :=
  match v with
  | JDict vs => forallb (fun kv => is_number (snd kv)) vs
  | _ => false
  end.

Definition metric_shape (m : json) : bool :=
  match m with
  | JDict fs =>
      match dict_get "values" fs with
      | Some v => values_shape v
      | None => true
      end
  | _ => false
  end.

Definition metrics_shape (v : json) : bool :=
  match v with
  | JDict ms => forallb (fun kv => metric_shape (snd kv)) ms
  | _ => false
  end.

Definition state_shape (v : json) : bool :=
  match v with
  | JDict st =>
      match dict_get "testRunDurationMs" st with
      | Some x => is_number x
      | None => true
      end
  | _ => false
  end.

Definition raw_report (data : json) : bool :=
  match data with
  | JDict top =>
      match dict_get "metrics" top with
      | Some m => metrics_shape m
      | None => true
      end
      &&
      match dict_get "state" top with
      | Some s => state_shape s
      | None => true
      end
  | _ => false
  end.

(** What the lookups of a Raw Report resolve to. *)

Definition metrics_of (top : dict json) : dict json :=
  match dict_get "metrics" top with
  | Some (JDict ms) => ms
  | _ => []
  end.

Definition values_of (m : json) : dict json :=
  match m with
  | JDict fs =>
      match dict_get "values" fs with
      | Some (JDict vs) => vs
      | _ => []
      end
  | _ => []
  end.

Definition named_values (ms : dict json) (name : string) : dict json :=
  match dict_get name ms with
  | Some m => values_of m
  | None => []
  end.

Definition field (vs : dict json) (k : string) : json :=
  match dict_get k vs with
  | Some x => x
  | None => zero
  end.

Definition record_of (vs : dict json) : endpoint_stats :=
  mk_endpoint_stats (field vs "avg") (field vs "min") (field vs "med")
    (field vs "p(90)") (field vs "p(95)") (field vs "p(99)") (field vs "max").

(** A metric that the loop records: prefixed name, non-empty [values]. *)
Definition recorded (item : string * json) : bool :=
  startswith (fst item) latency_prefix
  && match values_of (snd item) with [] => false | _ => true end.

(** [old] occurs somewhere in [s]. *)
Fixpoint contains (old s : string) : bool :=
  match s with
  | EmptyString => String.prefix old s
  | String _ s' => String.prefix old s || contains old s'
  end.

(** The loop and the record of overall statistics on a Raw Report, with
    every lookup resolved. *)

Definition endpoints_step (acc : dict endpoint_stats) (item : string * json)
    : dict endpoint_stats :=
  if recorded item
  then dict_set (endpoint_of (fst item)) (record_of (values_of (snd item))) acc
  else acc.

Definition endpoints_from (items : list (string * json))
    (acc : dict endpoint_stats) : dict endpoint_stats :=
  fold_left endpoints_step items acc.

Definition duration_ms (top : dict json) : Q :=
  match dict_get "state" top with
  | Some (JDict st) =>
      match dict_get "testRunDurationMs" st with
      | Some (JNum q) => q
      | _ => 0
      end
  | _ => 0
  end.

Definition overall_of (top : dict json) : overall_stats :=
  let ms := metrics_of top in
  let http_duration := named_values ms "http_req_duration" in
  let http_reqs := named_values ms "http_reqs" in
  let http_failed := named_values ms "http_req_failed" in
  let vus_v := named_values ms "vus" in
  let checks := named_values ms "checks" in
  mk_overall_stats
    (field http_duration "med") (field http_duration "p(90)")
    (field http_duration "p(95)") (field http_duration "p(99)")
    (field http_duration "avg") (field http_duration "min")
    (field http_duration "max")
    (field http_reqs "count") (field http_reqs "rate")
    (field http_failed "rate")
    (JNum (duration_ms top / 1000))
    (field vus_v "value") (field vus_v "max")
    (field checks "rate") (field checks "count")
    (field checks "passes") (field checks "fails").

(** Every field of the derived structures is a number. *)

Definition endpoint_numeric (r : endpoint_stats) : bool :=
  is_number (ep_avg r) && is_number (ep_min r) && is_number (ep_med r)
  && is_number (ep_p90 r) && is_number (ep_p95 r) && is_number (ep_p99 r)
  && is_number (ep_max r).

Definition overall_numeric (o : overall_stats) : bool :=
  is_number (p50 o) && is_number (p90 o) && is_number (p95 o)
  && is_number (p99 o) && is_number (avg o) && is_number (min o)
  && is_number (max o) && is_number (total_requests o)
  && is_number (requests_per_sec o) && is_number (error_rate o)
  && is_number (duration_s o) && is_number (vus o) && is_number (vus_max o)
  && is_number (checks_pass_rate o) && is_number (checks_total o)
  && is_number (checks_passed o) && is_number (checks_failed o).

(** The value found in a nested mapping by following a list of keys. *)
Fixpoint path (keys : list string) (v : json) : option json :=
  match keys with
  | [] => Some v
  | k :: keys' =>
      match v with
      | JDict kvs =>
          match dict_get k kvs with
          | Some x => path keys' x
          | None => None
          end
      | _ => None
      end
  end.

(** The division of [state.testRunDurationMs] by 1000 does not overflow:
    the field is absent, or its quotient fits a float. *)
Definition duration_fits (data : json) : bool :=
  match path ["state"; "testRunDurationMs"] data with
  | Some (JNum x) => negb (overflows (x / 1000))
  | _ => true
  end.

(** The [p95] field of an entry is the number [q]. *)
Definition has_p95 (q : Q) (x : string * endpoint_stats) : bool :=
  match number (ep_p95 (snd x)) with
  | Some v => Qeq_bool v q
  | None => false
  end.

(** A report whose test duration is an integer with 401 digits. *)
Definition huge_duration_report : json :=
  JDict [("state", JDict [("testRunDurationMs", JNum (inject_Z (10 ^ 400)))])].

(** The endpoint identifier in the words of the specification: the metric
    name without its leading prefix, the rest of the name unchanged.  It
    is compared with [endpoint_of], which is what the code computes. *)
Definition spec_endpoint_of (metric_name : string) : string :=
  substring (String.length latency_prefix)
    (String.length metric_name - String.length latency_prefix) metric_name.

(** The order in which a scan first meets each key. *)
Definition add_key (seen : list string) (k : string) : list string :=
  if existsb (String.eqb k) seen then seen else seen ++ [k].

Definition first_occurrences (ks : list string) : list string :=
  fold_left add_key ks [].

(** The endpoint identifiers of the recorded metrics, in scan order. *)
Definition scan_order (items : list (string * json)) : list string :=
  first_occurrences
    (map (fun item => endpoint_of (fst item)) (filter recorded items)).

(** ** Sample reports *)

(** A sparse report: one endpoint metric with a single field, no [state]. *)
Definition sparse_report : json :=
  JDict [("metrics", JDict [
    ("latency_ms_login", JDict [("values", JDict [("p(95)", JNum 200)])]);
    ("http_reqs", JDict [])])].

(** A report with a [state] and without [metrics]. *)
Definition state_only_report : json :=
  JDict [("state", JDict [("testRunDurationMs", JNum 5000)])].

(** The fixture of the round-trip property. *)
Definition fixture_report : json :=
  JDict [
    ("metrics", JDict [
      ("http_req_duration", JDict [("values", JDict [
         ("med", JNum 120); ("p(90)", JNum 300);
         ("p(95)", JNum 450); ("p(99)", JNum 900)])]);
      ("http_reqs", JDict [("values", JDict [
         ("count", JNum 10000); ("rate", JNum 55.5)])])]);
    ("state", JDict [("testRunDurationMs", JNum 30000)])].

(** A metric name in which the prefix occurs twice. *)
Definition nested_prefix_report : json :=
  JDict [("metrics", JDict [
    ("latency_ms_a_latency_ms_b",
       JDict [("values", JDict [("avg", JNum 1)])])])].

(** Two metric names that [endpoint_of] sends to the same identifier. *)
Definition colliding_report : json :=
  JDict [("metrics", JDict [
    ("latency_ms_a", JDict [("values", JDict [("avg", JNum 1)])]);
    ("latency_ms_latency_ms_a",
       JDict [("values", JDict [("avg", JNum 2)])])])].

(** Endpoint metrics with and without values, among other metrics. *)
Definition mixed_report : json :=
  JDict [("metrics", JDict [
    ("http_reqs", JDict [("values", JDict [("count", JNum 7)])]);
    ("latency_ms_login", JDict [("values", JDict [("p(95)", JNum 200)])]);
    ("latency_ms_cart", JDict [("values", JDict [])]);
    ("latency_ms_pay", JDict []);
    ("latency_ms_", JDict [("values", JDict [("p(95)", JNum 5)])]);
    ("latency_ms_checkout",
       JDict [("values", JDict [("p(95)", JNum 500)])])])].

(** Endpoint Stats with ties on the sort key. *)
Definition tied_endpoints : dict endpoint_stats :=
  [("login", mk_endpoint_stats zero zero zero zero (JNum 200) zero zero);
   ("cart", mk_endpoint_stats zero zero zero zero (JNum 500) zero zero);
   ("search", mk_endpoint_stats zero zero zero zero (JNum 200) zero zero);
   ("checkout", mk_endpoint_stats zero zero zero zero (JNum 500) zero zero);
   ("home", mk_endpoint_stats zero zero zero zero (JNum 10) zero zero);
   ("pay", mk_endpoint_stats zero zero zero zero (JNum 900) zero zero)].

(** ** The renderers, the console summary and [main]

    The plotting library and the formatting of text are not part of the
    model.  A renderer is followed up to its guard and to the series it
    hands to the library; what comes after (drawing, labels, [savefig]) is
    the parameter [draw], which says whether it ends without an exception.
    The events of a run are the calls of [print], one [message] each, and
    the files saved. *)

Definition is_dict (v : json) : bool :=
  match v with JDict _ => true | _ => false end.

(** One constructor for each [print] of [load_spike_data] and [main], in
    the order of the source; [SummaryReport] stands for the whole output
    of [print_performance_summary]. *)
Inductive message : Type :=
| LoadingResults
| ErrorNotFound
| ErrorInvalidJSON
| FailedToLoad
| HintFileLocation
| FailedToExtract
| GeneratingGraphs
| Rule
| Generated (file : string)
| SuccessSixGraphs
| GraphListEntry (n : nat) (file : string)
| SummaryReport (p : performance).

Inductive event : Type :=
| Printed (m : message)
| Saved (file : string).

(** How a call ends: it returns, or an exception leaves it uncaught. *)
Inductive status : Type := Returned | Uncaught.

Definition run : Type := (list event * status)%type.

Definition then_run (first next : run) : run :=
  match first with
  | (t, Returned) => (t ++ fst next, snd next)
  | (t, Uncaught) => (t, Uncaught)
  end.

Fixpoint saved_files (t : list event) : list string :=
  match t with
  | [] => []
  | Saved file :: t' => file :: saved_files t'
  | Printed _ :: t' => saved_files t'
  end.

(** What [open] and [json.load] do with [spike_results.json]. *)
Inductive read : Type :=
| FileNotFound
| InvalidJSON
| OtherFailure
| Parsed (data : json).

(** [load_spike_data]: the two exceptions it catches give [None]; any
    other one leaves it. *)
Definition load_spike_data (r : read) : list event * option json :=
  match r with
  | Parsed data => ([], Some data)
  | FileNotFound => ([Printed ErrorNotFound], Some JNull)
  | InvalidJSON => ([Printed ErrorInvalidJSON], Some JNull)
  | OtherFailure => ([], None)
  end.

Definition graph_files : list string :=
  ["spike_response_times.png";
   "complete_endpoint_performance_comparison.png";
   "error_rate_analysis.png";
   "system_capacity_analysis.png";
   "response_time_distribution_comparison.png";
   "overall_percentile_graph.png"].

Section Backend.
Variable draw : string -> performance -> bool.
Variable format_summary : performance -> bool.

(** The common shape of the six renderers: extract, return at the guard,
    draw and save, confirm.  [needs_endpoints] is the second half of the
    guard of [create_all_endpoints_comparison]. *)
Definition render (file : string) (needs_endpoints : bool) (data : json)
    : run :=
  match extract_performance_data data with
  | Raise _ => ([], Uncaught)
  | Ok None => ([], Returned)
  | Ok (Some performance) =>
      if needs_endpoints
         && match endpoints performance with [] => true | _ => false end
      then ([], Returned)
      else if draw file performance
      then ([Saved file; Printed (Generated file)], Returned)
      else ([], Uncaught)
  end.

Definition create_spike_response_times : json -> run :=
  render "spike_response_times.png" false.

Definition create_all_endpoints_comparison : json -> run :=
  render "complete_endpoint_performance_comparison.png" true.

Definition create_error_rate_analysis : json -> run :=
  render "error_rate_analysis.png" false.

Definition create_system_capacity_analysis : json -> run :=
  render "system_capacity_analysis.png" false.

Definition create_response_time_distribution : json -> run :=
  render "response_time_distribution_comparison.png" false.

Definition create_percentile_graph : json -> run :=
  render "overall_percentile_graph.png" false.

Definition print_performance_summary (performance : performance) : run :=
  if format_summary performance
  then ([Printed (SummaryReport performance)], Returned)
  else ([], Uncaught).

Definition main (r : read) : run :=
  let (diagnostic, loaded) := load_spike_data r in
  let start := Printed LoadingResults :: diagnostic in
  match loaded with
  | None => (start, Uncaught)
  | Some data =>
      if negb (truthy data)
      then (start ++ [Printed FailedToLoad; Printed HintFileLocation],
            Returned)
      else
        match extract_performance_data data with
        | Raise _ => (start, Uncaught)
        | Ok None => (start ++ [Printed FailedToExtract], Returned)
        | Ok (Some performance) =>
            then_run (start ++ [Printed GeneratingGraphs; Printed Rule],
                      Returned)
           (then_run (create_spike_response_times data)
           (then_run (create_all_endpoints_comparison data)
           (then_run (create_error_rate_analysis data)
           (then_run (create_system_capacity_analysis data)
           (then_run (create_response_time_distribution data)
           (then_run (create_percentile_graph data)
           (then_run
              (Printed Rule :: Printed SuccessSixGraphs
               :: map (fun nf => Printed (GraphListEntry (fst nf) (snd nf)))
                    (combine (seq 1 6) graph_files),
               Returned)
              (print_performance_summary performance))))))))
        end
  end.
End Backend.

(** ** The series of the renderers *)





(** [enumerate(l, start)]. *)
Definition enumerate {A : Type} (l : list A) (start : nat) : list (nat * A) :=
  combine (seq start (length l)) l.

(** The numbered rows under "Top 5 Slowest Endpoints". *)
Definition summary_rows (eps : dict endpoint_stats)
    : option (list (nat * (string * endpoint_stats))) :=
  option_map (fun sorted_endpoints => enumerate sorted_endpoints 1) (top5 eps).

(** [success_rate], [error_rate] and [checks_pass_rate] of
    [create_error_rate_analysis], for numeric rates; the first two are the
    wedges of the pie. *)
Definition reliability_rates (o : overall_stats) : option (Q * Q * Q) :=
  match number (error_rate o), number (checks_pass_rate o) with
  | Some e, Some c =>
      let error_rate := e * 100 in
      let success_rate := 100 - error_rate in
      let checks_pass_rate := c * 100 in
      Some (success_rate, error_rate, checks_pass_rate)
  | _, _ => None
  end.

(** The field of Overall Stats read from each metric and statistic. *)
Definition overall_sources : list ((overall_stats -> json) * string * string) :=
  [(p50, "http_req_duration", "med");
   (p90, "http_req_duration", "p(90)");
   (p95, "http_req_duration", "p(95)");
   (p99, "http_req_duration", "p(99)");
   (avg, "http_req_duration", "avg");
   (min, "http_req_duration", "min");
   (max, "http_req_duration", "max");
   (total_requests, "http_reqs", "count");
   (requests_per_sec, "http_reqs", "rate");
   (error_rate, "http_req_failed", "rate");
   (vus, "vus", "value");
   (vus_max, "vus", "max");
   (checks_pass_rate, "checks", "rate");
   (checks_total, "checks", "count");
   (checks_passed, "checks", "passes");
   (checks_failed, "checks", "fails")].

(** The last recorded metric of the scan that yields the identifier [e]. *)
Definition last_recorded (e : string) (items : list (string * json))
    : option (string * json) :=
  find (fun item => recorded item && String.eqb (endpoint_of (fst item)) e)
    (rev items).


(** Overall Stats with another [duration_s]. *)
Definition with_duration (o : overall_stats) (d : json) : overall_stats :=
  mk_overall_stats (p50 o) (p90 o) (p95 o) (p99 o) (avg o) (min o) (max o)
    (total_requests o) (requests_per_sec o) (error_rate o) d (vus o)
    (vus_max o) (checks_pass_rate o) (checks_total o) (checks_passed o)
    (checks_failed o).

(** The [metrics] value of a report is absent or has the shape of the
    data model. *)
Definition metrics_ok (top : dict json) : bool :=
  match dict_get "metrics" top with
  | Some m => metrics_shape m
  | None => true
  end.

(** The event is the line "Failed to extract performance data". *)
Definition is_failed_to_extract (e : event) : bool :=
  match e with
  | Printed FailedToExtract => true
  | _ => false
  end.

(** The graphs other than the endpoint comparison. *)
Definition graph_files_without_comparison : list string :=
  ["spike_response_times.png";
   "error_rate_analysis.png";
   "system_capacity_analysis.png";
   "response_time_distribution_comparison.png";
   "overall_percentile_graph.png"].

(** * Lemmas *)

(** ** Dictionaries *)

Lemma dict_get_In {V : Type} (k : string) (d : dict V) (v : V) :
  dict_get k d = Some v -> In (k, v) d.
Proof.
  induction d as [|[k' v'] d IH]; simpl; [discriminate|].
  destruct (String.eqb_spec k k') as [->|_].
  - intros [= ->]. now left.
  - intros H. right. now apply IH.
Qed.

Lemma dict_get_None {V : Type} (k : string) (d : dict V) :
  dict_get k d = None <-> ~ In k (keys d).
Proof.
  induction d as [|[k' v'] d IH]; simpl.
  - tauto.
  - destruct (String.eqb_spec k k') as [->|Hne].
    + split; [discriminate | intros H; exfalso; apply H; now left].
    + rewrite IH. split; intros H.
      * intros [E|E]; [now apply Hne | now apply H].
      * intros E. apply H. now right.
Qed.

Lemma keys_set_present {V : Type} (k : string) (v : V) (d : dict V) :
  In k (keys d) -> keys (dict_set k v d) = keys d.
Proof.
  induction d as [|[k' v'] d IH]; simpl; [tauto|].
  destruct (String.eqb_spec k k') as [->|Hk]; simpl; [reflexivity|].
  intros [E|E]; [now subst | now rewrite IH].
Qed.

Lemma dict_set_absent {V : Type} (k : string) (v : V) (d : dict V) :
  ~ In k (keys d) -> dict_set k v d = d ++ [(k, v)].
Proof.
  induction d as [|[k' v'] d IH]; simpl; [reflexivity|].
  intros H. destruct (String.eqb_spec k k') as [->|Hk].
  - exfalso. apply H. now left.
  - rewrite IH; [reflexivity | tauto].
Qed.

(** ** Lookups on a Raw Report *)

Lemma forallb_In {A : Type} (f : A -> bool) (l : list A) (x : A) :
  forallb f l = true -> In x l -> f x = true.
Proof. intros H. now apply forallb_forall. Qed.

Lemma metric_shape_values (m : json) :
  metric_shape m = true ->
  py_get m "values" empty = Ok (JDict (values_of m)) /\
  forallb (fun kv => is_number (snd kv)) (values_of m) = true.
Proof.
  destruct m as [| | | | |fs]; simpl; try discriminate.
  destruct (dict_get "values" fs) as [v|]; [|now split].
  destruct v; simpl; try discriminate. now split.
Qed.

Lemma named_values_shape (ms : dict json) (name : string) :
  forallb (fun kv => metric_shape (snd kv)) ms = true ->
  metric_values (JDict ms) name = Ok (JDict (named_values ms name)) /\
  forallb (fun kv => is_number (snd kv)) (named_values ms name) = true.
Proof.
  intros Hms. unfold metric_values, named_values. simpl.
  destruct (dict_get name ms) as [m|] eqn:E; [|now split].
  apply dict_get_In in E.
  apply (forallb_In _ _ _ Hms) in E. simpl in E.
  now apply metric_shape_values.
Qed.

Lemma py_get_field (vs : dict json) (k : string) :
  py_get (JDict vs) k zero = Ok (field vs k).
Proof. reflexivity. Qed.

Lemma field_number (vs : dict json) (k : string) :
  forallb (fun kv => is_number (snd kv)) vs = true ->
  is_number (field vs k) = true.
Proof.
  intros H. unfold field. destruct (dict_get k vs) as [v|] eqn:E; [|reflexivity].
  apply dict_get_In in E. now apply (forallb_In _ _ _ H) in E.
Qed.

Lemma endpoint_step_shape (acc : dict endpoint_stats) (item : string * json) :
  metric_shape (snd item) = true ->
  endpoint_step acc item = Ok (endpoints_step acc item).
Proof.
  destruct item as [name m]. simpl. intros Hm.
  unfold endpoint_step, endpoints_step, recorded. simpl.
  destruct (startswith name latency_prefix); [|reflexivity].
  destruct (metric_shape_values m Hm) as [-> _]. simpl.
  destruct (values_of m); reflexivity.
Qed.

Lemma endpoint_loop_shape (items : list (string * json))
    (acc : dict endpoint_stats) :
  forallb (fun kv => metric_shape (snd kv)) items = true ->
  endpoint_loop items acc = Ok (endpoints_from items acc).
Proof.
  revert acc. induction items as [|item rest IH]; intros acc H; simpl in *.
  - reflexivity.
  - apply andb_prop in H. destruct H as [Hi Hr].
    rewrite (endpoint_step_shape acc item Hi). simpl. now apply IH.
Qed.

Lemma metrics_of_shape (top : dict json) :
  raw_report (JDict top) = true ->
  py_get (JDict top) "metrics" empty = Ok (JDict (metrics_of top)) /\
  forallb (fun kv => metric_shape (snd kv)) (metrics_of top) = true.
Proof.
  simpl. unfold metrics_of. intros H. apply andb_prop in H. destruct H as [H _].
  destruct (dict_get "metrics" top) as [m|]; [|now split].
  destruct m; simpl in H; try discriminate. now split.
Qed.

Lemma duration_shape (top : dict json) :
  raw_report (JDict top) = true ->
  (st <- py_get (JDict top) "state" empty ;;
   ms <- py_get st "testRunDurationMs" zero ;;
   py_truediv ms 1000) = py_truediv (JNum (duration_ms top)) 1000.
Proof.
  cbn [raw_report]. unfold duration_ms. intros H.
  apply andb_prop in H. destruct H as [_ H]. cbn [py_get bind].
  destruct (dict_get "state" top) as [s|]; [|reflexivity].
  destruct s as [| | | | |st]; cbn [state_shape] in H; try discriminate.
  cbn [py_get bind].
  destruct (dict_get "testRunDurationMs" st) as [x|]; [|reflexivity].
  destruct x; cbn [is_number] in H; try discriminate. reflexivity.
Qed.

(** On a non-empty Raw Report the extractor goes as far as the division
    with every lookup resolved; it returns unless the division
    overflows. *)
Lemma extract_raw_report_division (top : dict json) :
  raw_report (JDict top) = true -> top <> [] ->
  extract_performance_data (JDict top) =
  if overflows (duration_ms top / 1000)
  then Raise OverflowError
  else Ok (Some (mk_performance (overall_of top)
                   (endpoints_from (metrics_of top) []))).
Proof.
  intros Hshape Hne. unfold extract_performance_data.
  replace (negb (truthy (JDict top))) with false
    by (destruct top; [contradiction | reflexivity]).
  destruct (metrics_of_shape top Hshape) as [-> Hms]. cbn [bind].
  destruct (named_values_shape _ "http_req_duration" Hms) as [-> _].
  destruct (named_values_shape _ "http_reqs" Hms) as [-> _].
  destruct (named_values_shape _ "http_req_failed" Hms) as [-> _].
  destruct (named_values_shape _ "vus" Hms) as [-> _].
  destruct (named_values_shape _ "checks" Hms) as [-> _].
  cbn [bind py_items].
  rewrite (endpoint_loop_shape _ [] Hms). cbn [bind].
  rewrite !py_get_field. cbn [bind].
  pose proof (duration_shape top Hshape) as Hd.
  destruct (py_get (JDict top) "state" empty) as [st|e]; cbn [bind] in *.
  - destruct (py_get st "testRunDurationMs" zero) as [ms|e]; cbn [bind] in *.
    + rewrite Hd. unfold py_truediv.
      now destruct (overflows (duration_ms top / 1000)).
    + unfold py_truediv in Hd.
      destruct (overflows (duration_ms top / 1000)); congruence.
  - unfold py_truediv in Hd.
    destruct (overflows (duration_ms top / 1000)); congruence.
Qed.

(** On a non-empty Raw Report whose duration fits, the extractor
    returns, and every field is the resolved lookup. *)
Lemma extract_raw_report (top : dict json) :
  raw_report (JDict top) = true -> top <> [] ->
  overflows (duration_ms top / 1000) = false ->
  extract_performance_data (JDict top) =
  Ok (Some (mk_performance (overall_of top)
              (endpoints_from (metrics_of top) []))).
Proof.
  intros Hshape Hne Hfit.
  now rewrite (extract_raw_report_division top Hshape Hne), Hfit.
Qed.

Lemma zero_fits : overflows (0 / 1000) = false.
Proof. vm_compute. reflexivity. Qed.

Lemma duration_fits_ms (top : dict json) :
  raw_report (JDict top) = true ->
  duration_fits (JDict top) = negb (overflows (duration_ms top / 1000)).
Proof.
  cbn [raw_report]. unfold duration_fits, duration_ms. cbn [path].
  intros H. apply andb_prop in H. destruct H as [_ H].
  destruct (dict_get "state" top) as [s|]; [|now rewrite zero_fits].
  destruct s as [| | | | |st]; cbn [state_shape] in H; try discriminate.
  destruct (dict_get "testRunDurationMs" st) as [x|];
    [|now rewrite zero_fits].
  destruct x; cbn [is_number] in H; try discriminate. reflexivity.
Qed.

Lemma duration_fits_false (top : dict json) :
  raw_report (JDict top) = true -> duration_fits (JDict top) = true ->
  overflows (duration_ms top / 1000) = false.
Proof.
  intros Hshape Hfit. rewrite (duration_fits_ms top Hshape) in Hfit.
  now destruct (overflows (duration_ms top / 1000)).
Qed.

(** ** No lookup raises [KeyError] *)

Lemma bind_not_raises {A B : Type} (e : exn) (r : result A)
    (k : A -> result B) :
  raises e r = false -> (forall a, raises e (k a) = false) ->
  raises e (bind r k) = false.
Proof. destruct r as [a|e']; simpl; auto. Qed.

Lemma py_get_no_KeyError (v : json) (k : string) (d : json) :
  raises KeyError (py_get v k d) = false.
Proof. destruct v; reflexivity. Qed.

Lemma py_items_no_KeyError (v : json) : raises KeyError (py_items v) = false.
Proof. destruct v; reflexivity. Qed.

Lemma py_truediv_no_KeyError (v : json) (d : Q) :
  raises KeyError (py_truediv v d) = false.
Proof.
  destruct v; try reflexivity. unfold py_truediv.
  now destruct (overflows (q / d)).
Qed.

Ltac no_key_error :=
  repeat first
    [ apply py_get_no_KeyError
    | apply py_items_no_KeyError
    | apply py_truediv_no_KeyError
    | reflexivity
    | apply bind_not_raises; [|intro] ].

Lemma metric_values_no_KeyError (m : json) (name : string) :
  raises KeyError (metric_values m name) = false.
Proof. unfold metric_values. no_key_error. Qed.

Lemma endpoint_step_no_KeyError (acc : dict endpoint_stats)
    (item : string * json) :
  raises KeyError (endpoint_step acc item) = false.
Proof.
  destruct item as [name m]. unfold endpoint_step, endpoint_record.
  destruct (startswith name latency_prefix); [|reflexivity].
  apply bind_not_raises; [apply py_get_no_KeyError|]. intros v.
  destruct (truthy v); no_key_error.
Qed.

Lemma endpoint_loop_no_KeyError (items : list (string * json))
    (acc : dict endpoint_stats) :
  raises KeyError (endpoint_loop items acc) = false.
Proof.
  revert acc. induction items as [|item rest IH]; intros acc; simpl.
  - reflexivity.
  - apply bind_not_raises; [apply endpoint_step_no_KeyError | auto].
Qed.

Lemma extract_no_KeyError (data : json) :
  raises KeyError (extract_performance_data data) = false.
Proof.
  unfold extract_performance_data.
  destruct (negb (truthy data)); [reflexivity|].
  repeat first
    [ apply py_get_no_KeyError
    | apply py_items_no_KeyError
    | apply py_truediv_no_KeyError
    | apply metric_values_no_KeyError
    | apply endpoint_loop_no_KeyError
    | reflexivity
    | apply bind_not_raises; [|intro] ].
Qed.

(** ** Numeric fields *)

Lemma forallb_dict_set {V : Type} (P : V -> bool) (k : string) (v : V)
    (d : dict V) :
  forallb (fun kv => P (snd kv)) d = true -> P v = true ->
  forallb (fun kv => P (snd kv)) (dict_set k v d) = true.
Proof.
  intros Hd Hv. induction d as [|[k' v'] d IH]; simpl in *.
  - now rewrite Hv.
  - apply andb_prop in Hd. destruct Hd as [H1 H2].
    destruct (String.eqb k k'); simpl.
    + now rewrite Hv, H2.
    + now rewrite H1, IH.
Qed.

Lemma record_of_numeric (vs : dict json) :
  forallb (fun kv => is_number (snd kv)) vs = true ->
  endpoint_numeric (record_of vs) = true.
Proof.
  intros H. unfold endpoint_numeric, record_of. simpl.
  now rewrite !(field_number vs _ H).
Qed.

Lemma endpoints_from_numeric (items : list (string * json))
    (acc : dict endpoint_stats) :
  forallb (fun kv => metric_shape (snd kv)) items = true ->
  forallb (fun kv => endpoint_numeric (snd kv)) acc = true ->
  forallb (fun kv => endpoint_numeric (snd kv)) (endpoints_from items acc)
  = true.
Proof.
  revert acc. induction items as [|item rest IH]; intros acc Hi Ha; simpl in *.
  - exact Ha.
  - apply andb_prop in Hi. destruct Hi as [Hm Hr].
    apply IH; [exact Hr|]. unfold endpoints_step.
    destruct (recorded item); [|exact Ha].
    apply forallb_dict_set; [exact Ha|].
    apply record_of_numeric. now apply metric_shape_values.
Qed.

Lemma overall_of_numeric (top : dict json) :
  raw_report (JDict top) = true -> overall_numeric (overall_of top) = true.
Proof.
  intros Hshape. destruct (metrics_of_shape top Hshape) as [_ Hms].
  unfold overall_numeric, overall_of. cbn [p50 p90 p95 p99 avg min max
    total_requests requests_per_sec error_rate duration_s vus vus_max
    checks_pass_rate checks_total checks_passed checks_failed].
  rewrite !field_number by (now apply named_values_shape).
  reflexivity.
Qed.

(** ** What a returning call has computed *)

Ltac bind_inv H :=
  repeat match type of H with
  | bind ?r _ = Ok _ =>
      let E := fresh "E" in
      destruct r eqn:E; cbn [bind] in H; [|discriminate H]
  end.

Lemma py_get_returns (v : json) (k : string) (d x : json) :
  py_get v k d = Ok x ->
  exists kvs, v = JDict kvs /\
    x = match dict_get k kvs with Some y => y | None => d end.
Proof.
  destruct v; simpl; try discriminate. intros [= <-]. now eexists.
Qed.

Lemma endpoint_record_returns (v : json) (r : endpoint_stats) :
  endpoint_record v = Ok r -> exists vs, v = JDict vs /\ r = record_of vs.
Proof.
  destruct v; simpl; try discriminate. intros [= <-]. now eexists.
Qed.

Lemma endpoint_step_returns (acc r : dict endpoint_stats)
    (item : string * json) :
  endpoint_step acc item = Ok r -> r = endpoints_step acc item.
Proof.
  destruct item as [name m]. unfold endpoint_step, endpoints_step, recorded.
  simpl. destruct (startswith name latency_prefix); simpl;
    [|now intros [= <-]].
  intros H. bind_inv H.
  apply py_get_returns in E. destruct E as (fs & -> & ->). simpl.
  destruct (dict_get "values" fs) as [v|]; simpl in H; [|now injection H].
  destruct (truthy v) eqn:Ht.
  - bind_inv H. injection H as <-.
    apply endpoint_record_returns in E. destruct E as (vs & -> & ->).
    destruct vs; [discriminate Ht | reflexivity].
  - injection H as <-. destruct v as [| | | | |vs]; try reflexivity.
    destruct vs; [reflexivity | discriminate Ht].
Qed.

Lemma endpoint_loop_returns (items : list (string * json))
    (acc r : dict endpoint_stats) :
  endpoint_loop items acc = Ok r -> r = endpoints_from items acc.
Proof.
  revert acc. induction items as [|item rest IH]; intros acc H; simpl in *.
  - now injection H.
  - bind_inv H. apply endpoint_step_returns in E. subst. now apply IH.
Qed.

Lemma extract_returns (data : json) (perf : performance) :
  extract_performance_data data = Ok (Some perf) ->
  exists top, data = JDict top /\
    endpoint_loop (metrics_of top) [] = Ok (endpoints perf) /\
    endpoints perf = endpoints_from (metrics_of top) [].
Proof.
  unfold extract_performance_data.
  destruct (negb (truthy data)); [discriminate|]. intros H.
  destruct (py_get data "metrics" empty) as [mv|] eqn:Em; cbn [bind] in H;
    [|discriminate H].
  apply py_get_returns in Em. destruct Em as (top & -> & Emv).
  exists top. split; [reflexivity|].
  do 5 (match type of H with
        | bind ?r _ = Ok _ => destruct r; cbn [bind] in H; [|discriminate H]
        end).
  destruct (py_items mv) as [items|] eqn:Ei; cbn [bind] in H;
    [|discriminate H].
  destruct (endpoint_loop items []) as [em|] eqn:El; cbn [bind] in H;
    [|discriminate H].
  bind_inv H. injection H as <-. cbn [endpoints].
  destruct mv; simpl in Ei; try discriminate. injection Ei as ->.
  assert (metrics_of top = items) as ->.
  { unfold metrics_of. destruct (dict_get "metrics" top) as [m|].
    - now subst m.
    - unfold empty in Emv. now injection Emv as <-. }
  split; [exact El | now apply endpoint_loop_returns].
Qed.

Lemma extract_None_iff (data : json) :
  extract_performance_data data = Ok None <-> truthy data = false.
Proof.
  unfold extract_performance_data. destruct (truthy data); simpl.
  - split; [|discriminate]. intros H. bind_inv H. discriminate H.
  - now split.
Qed.

(** ** Strings *)

Lemma prefix_app (p s : string) : String.prefix p (p ++ s)%string = true.
Proof.
  induction p as [|c p IH]; simpl; [now destruct s|].
  destruct (ascii_dec c c); [exact IH | contradiction].
Qed.

Lemma prefix_split (p s : string) :
  String.prefix p s = true -> exists rest, s = (p ++ rest)%string.
Proof.
  revert s. induction p as [|c p IH]; intros s; simpl.
  - intros _. now exists s.
  - destruct s as [|c' s]; simpl; [discriminate|].
    destruct (ascii_dec c c') as [Hc|_]; [subst c'|discriminate].
    intros H. destruct (IH s H) as [rest ->]. now exists rest.
Qed.

Lemma substring_all (s : string) : substring 0 (String.length s) s = s.
Proof. induction s as [|c s IH]; simpl; [reflexivity | now rewrite IH]. Qed.

Lemma substring_after (p rest : string) :
  substring (String.length p)
    (String.length (p ++ rest)%string - String.length p)
    (p ++ rest)%string = rest.
Proof.
  induction p as [|c p IH]; simpl.
  - rewrite Nat.sub_0_r. apply substring_all.
  - exact IH.
Qed.

Lemma replace_from_skip (old new : string) (s1 s2 : string) :
  replace_from old new (String.length s1) (s1 ++ s2)%string
  = replace_from old new 0 s2.
Proof. induction s1 as [|c s1 IH]; simpl; [reflexivity | exact IH]. Qed.

Lemma replace_from_cons (old new : string) (c : ascii) (s : string) :
  replace_from old new 0 (String c s) =
  if String.prefix old (String c s)
  then (new ++ replace_from old new (String.length old - 1) s)%string
  else String c (replace_from old new 0 s).
Proof. reflexivity. Qed.

(** A leading occurrence is replaced and the scan goes on behind it. *)
Lemma replace_leading (old new : string) (c : ascii) (old' s : string) :
  old = String c old' ->
  replace (old ++ s)%string old new = (new ++ replace s old new)%string.
Proof.
  intros ->. unfold replace.
  change (String c old' ++ s)%string with (String c (old' ++ s)%string).
  rewrite replace_from_cons.
  change (String c (old' ++ s)%string) with (String c old' ++ s)%string.
  rewrite prefix_app.
  replace (String.length (String c old') - 1)%nat with (String.length old')
    by (simpl; lia).
  now rewrite replace_from_skip.
Qed.

(** Nothing is replaced in a string without an occurrence. *)
Lemma replace_absent (old new s : string) :
  contains old s = false -> replace s old new = s.
Proof.
  unfold replace. induction s as [|c s IH]; [reflexivity|].
  cbn [contains]. intros H. apply orb_false_elim in H. destruct H as [Hp Hc].
  rewrite replace_from_cons, Hp. now rewrite IH.
Qed.

Lemma spec_endpoint_of_prefix (rest : string) :
  spec_endpoint_of (latency_prefix ++ rest)%string = rest.
Proof. unfold spec_endpoint_of. apply substring_after. Qed.

(** Where the prefix occurs only at the front of a metric name, the code
    computes the identifier of the specification. *)
Lemma endpoint_of_single_prefix (metric_name : string) :
  startswith metric_name latency_prefix = true ->
  contains latency_prefix (spec_endpoint_of metric_name) = false ->
  endpoint_of metric_name = spec_endpoint_of metric_name.
Proof.
  intros Hp Hc. apply prefix_split in Hp. destruct Hp as [rest ->].
  rewrite spec_endpoint_of_prefix in *. unfold endpoint_of.
  rewrite (replace_leading latency_prefix EmptyString "l" "atency_ms_" rest eq_refl).
  simpl append. now apply replace_absent.
Qed.

(** ** The overall statistics *)

Lemma duration_ms_cases (top : dict json) :
  (dict_get "state" top = None -> duration_ms top / 1000 == 0) /\
  (forall st, dict_get "state" top = Some (JDict st) ->
     dict_get "testRunDurationMs" st = None -> duration_ms top / 1000 == 0) /\
  (forall st x, dict_get "state" top = Some (JDict st) ->
     dict_get "testRunDurationMs" st = Some (JNum x) ->
     duration_ms top = x).
Proof.
  unfold duration_ms. repeat split.
  - now intros ->.
  - now intros st -> ->.
  - now intros st x -> ->.
Qed.

Lemma named_values_no_metrics (top : dict json) (name : string) :
  dict_get "metrics" top = None -> named_values (metrics_of top) name = [].
Proof. unfold metrics_of. now intros ->. Qed.

(** ** Where the entries of Endpoint Stats come from *)

Lemma In_dict_set {V : Type} (k e : string) (v r : V) (d : dict V) :
  In (e, r) (dict_set k v d) -> (e = k /\ r = v) \/ In (e, r) d.
Proof.
  induction d as [|[k' v'] d IH]; simpl.
  - intros [[= -> ->]|[]]. now left.
  - destruct (String.eqb k k'); simpl.
    + intros [[= -> ->]|H]; [now left | right; now right].
    + intros [H|H]; [right; now left|].
      destruct (IH H) as [H'|H']; [now left | right; now right].
Qed.

Lemma keys_dict_set {V : Type} (k e : string) (v : V) (d : dict V) :
  In e (keys (dict_set k v d)) <-> e = k \/ In e (keys d).
Proof.
  induction d as [|[k' v'] d IH]; simpl.
  - intuition.
  - destruct (String.eqb_spec k k') as [->|Hk]; simpl.
    + intuition.
    + rewrite IH. intuition.
Qed.

Lemma endpoints_step_keys (acc : dict endpoint_stats) (item : string * json)
    (k : string) :
  In k (keys acc) -> In k (keys (endpoints_step acc item)).
Proof.
  intros H. unfold endpoints_step. destruct (recorded item); [|exact H].
  apply keys_dict_set. now right.
Qed.

Lemma endpoints_from_keys (items : list (string * json))
    (acc : dict endpoint_stats) (k : string) :
  In k (keys acc) -> In k (keys (endpoints_from items acc)).
Proof.
  revert acc. induction items as [|item rest IH]; intros acc H; simpl.
  - exact H.
  - apply IH. now apply endpoints_step_keys.
Qed.

(** A recorded metric leaves its endpoint identifier in the mapping. *)
Lemma recorded_key_present (items : list (string * json))
    (acc : dict endpoint_stats) (item : string * json) :
  In item items -> recorded item = true ->
  In (endpoint_of (fst item)) (keys (endpoints_from items acc)).
Proof.
  revert acc. induction items as [|it rest IH]; intros acc Hin Hr;
    [destruct Hin|]. destruct Hin as [E|E]; simpl.
  - subst it. apply endpoints_from_keys. unfold endpoints_step.
    rewrite Hr. apply keys_dict_set. now left.
  - now apply IH.
Qed.

(** Every entry is the record of some recorded metric. *)
Lemma endpoints_from_provenance (items : list (string * json))
    (acc : dict endpoint_stats) (e : string) (r : endpoint_stats) :
  In (e, r) (endpoints_from items acc) ->
  In (e, r) acc \/
  exists item, In item items /\ recorded item = true /\
    e = endpoint_of (fst item) /\ r = record_of (values_of (snd item)).
Proof.
  revert acc. induction items as [|it rest IH]; intros acc H; simpl in H.
  - now left.
  - destruct (IH _ H) as [Ha|(item & Hi & Hr & He & Hv)].
    + unfold endpoints_step in Ha. destruct (recorded it) eqn:Hr.
      * apply In_dict_set in Ha. destruct Ha as [[-> ->]|Ha]; [|now left].
        right. exists it. repeat split; [now left | exact Hr].
      * now left.
    + right. exists item. repeat split; [now right | assumption..].
Qed.

Lemma recorded_inv (item : string * json) :
  recorded item = true ->
  startswith (fst item) latency_prefix = true /\ values_of (snd item) <> [].
Proof.
  unfold recorded. intros H. apply andb_prop in H. destruct H as [H1 H2].
  split; [exact H1|]. now destruct (values_of (snd item)).
Qed.

(** A metric without the prefix is a step that changes nothing. *)
Lemma endpoint_loop_filter (items : list (string * json))
    (acc : dict endpoint_stats) :
  endpoint_loop
    (filter (fun item => startswith (fst item) latency_prefix) items) acc
  = endpoint_loop items acc.
Proof.
  revert acc. induction items as [|[name m] rest IH]; intros acc.
  - reflexivity.
  - cbn [filter fst]. destruct (startswith name latency_prefix) eqn:Hp;
      cbn [endpoint_loop].
    + destruct (endpoint_step acc (name, m)); cbn [bind];
        [apply IH | reflexivity].
    + assert (endpoint_step acc (name, m) = Ok acc) as ->
        by (unfold endpoint_step; now rewrite Hp).
      cbn [bind]. apply IH.
Qed.

(** No entry for an identifier that no recorded metric yields. *)
Lemma endpoints_from_absent (items : list (string * json)) (e : string) :
  forallb (fun item =>
    negb (recorded item && String.eqb (endpoint_of (fst item)) e)) items
  = true ->
  dict_get e (endpoints_from items []) = None.
Proof.
  intros H. apply dict_get_None. intros Hin.
  apply in_map_iff in Hin. destruct Hin as ([e' r] & He & Hin).
  simpl in He. subst e'.
  apply endpoints_from_provenance in Hin.
  destruct Hin as [[]|(item & Hi & Hr & He & _)].
  apply (forallb_In _ _ _ H) in Hi. simpl in Hi.
  rewrite Hr, <- He, String.eqb_refl in Hi. discriminate.
Qed.

(** ** Sorting *)

Lemma Qltb_true (x y : Q) : Qltb x y = true -> x < y.
Proof.
  unfold Qltb. intros H. apply Qnot_le_lt. intros Hle.
  apply Qle_bool_iff in Hle. rewrite Hle in H. discriminate.
Qed.

Lemma Qltb_false (x y : Q) : Qltb x y = false -> y <= x.
Proof.
  unfold Qltb. intros H. apply Qle_bool_iff.
  now destruct (Qle_bool y x).
Qed.

Section SortedFacts.
Context {A : Type} (key : A -> Q).

Lemma insert_perm (x : A) (l : list A) : Permutation (x :: l) (insert key x l).
Proof.
  induction l as [|y l IH]; simpl; [reflexivity|].
  destruct (Qltb (key y) (key x)); [|reflexivity].
  rewrite perm_swap. now apply perm_skip.
Qed.

Lemma stable_sort_perm (l : list A) : Permutation l (stable_sort key l).
Proof.
  induction l as [|x l IH]; simpl; [reflexivity|].
  rewrite <- insert_perm. now apply perm_skip.
Qed.

Lemma insert_sorted (x : A) (l : list A) :
  StronglySorted (fun a b => key a <= key b) l ->
  StronglySorted (fun a b => key a <= key b) (insert key x l).
Proof.
  induction l as [|y l IH]; intros Hs; simpl.
  - constructor; constructor.
  - apply StronglySorted_inv in Hs. destruct Hs as [Hl Hy].
    destruct (Qltb (key y) (key x)) eqn:Hlt.
    + constructor; [now apply IH|].
      rewrite <- insert_perm. constructor; [|exact Hy].
      apply Qlt_le_weak. now apply Qltb_true.
    + apply Qltb_false in Hlt.
      constructor; [now constructor|].
      constructor; [exact Hlt|].
      eapply Forall_impl; [|exact Hy]. intros z Hz. simpl in Hz.
      now apply Qle_trans with (key y).
Qed.

Lemma stable_sort_sorted (l : list A) :
  StronglySorted (fun a b => key a <= key b) (stable_sort key l).
Proof.
  induction l as [|x l IH]; simpl; [constructor | now apply insert_sorted].
Qed.

(** [insert] moves [x] only past strictly smaller keys, so within one
    key nothing changes place. *)
Lemma insert_filter (q : Q) (x : A) (l : list A) :
  filter (fun a => Qeq_bool (key a) q) (insert key x l)
  = filter (fun a => Qeq_bool (key a) q) (x :: l).
Proof.
  induction l as [|y l IH]; [reflexivity|].
  cbn [insert]. destruct (Qltb (key y) (key x)) eqn:Hlt; [|reflexivity].
  cbn [filter] in *. rewrite IH.
  destruct (Qeq_bool (key x) q) eqn:Hx, (Qeq_bool (key y) q) eqn:Hy;
    try reflexivity.
  exfalso.
  apply Qeq_bool_iff in Hx. apply Qeq_bool_iff in Hy.
  apply Qltb_true in Hlt. rewrite Hx, Hy in Hlt.
  exact (Qlt_irrefl q Hlt).
Qed.

Lemma stable_sort_filter (q : Q) (l : list A) :
  filter (fun a => Qeq_bool (key a) q) (stable_sort key l)
  = filter (fun a => Qeq_bool (key a) q) l.
Proof.
  induction l as [|x l IH]; [reflexivity|].
  cbn [stable_sort fold_right]. fold (stable_sort key l).
  rewrite insert_filter. cbn [filter]. now rewrite IH.
Qed.

Lemma sorted_snoc (R : A -> A -> Prop) (l : list A) (x : A) :
  StronglySorted R l -> Forall (fun y => R y x) l ->
  StronglySorted R (l ++ [x]).
Proof.
  induction l as [|y l IH]; intros Hs Hx; simpl.
  - constructor; constructor.
  - apply StronglySorted_inv in Hs. destruct Hs as [Hl Hy].
    apply Forall_cons_iff in Hx. destruct Hx as [Hyx Hx].
    constructor; [now apply IH|].
    apply Forall_app. split; [exact Hy | now constructor].
Qed.

Lemma sorted_rev (R : A -> A -> Prop) (l : list A) :
  StronglySorted R l -> StronglySorted (fun a b => R b a) (rev l).
Proof.
  induction l as [|x l IH]; intros Hs; simpl; [constructor|].
  apply StronglySorted_inv in Hs. destruct Hs as [Hl Hx].
  apply sorted_snoc; [now apply IH|].
  apply Forall_rev. exact Hx.
Qed.

Lemma sorted_reverse_perm (l : list A) : Permutation l (sorted key true l).
Proof.
  unfold sorted. rewrite <- Permutation_rev, <- stable_sort_perm.
  apply Permutation_rev.
Qed.

Lemma sorted_reverse_descending (l : list A) :
  StronglySorted (fun a b => key b <= key a) (sorted key true l).
Proof.
  unfold sorted.
  apply (sorted_rev (fun a b => key a <= key b)), stable_sort_sorted.
Qed.

Lemma sorted_reverse_stable (q : Q) (l : list A) :
  filter (fun a => Qeq_bool (key a) q) (sorted key true l)
  = filter (fun a => Qeq_bool (key a) q) l.
Proof.
  unfold sorted.
  now rewrite filter_rev, stable_sort_filter, filter_rev, rev_involutive.
Qed.
End SortedFacts.

Lemma endpoint_numeric_p95 (eps : dict endpoint_stats) :
  forallb (fun kv => endpoint_numeric (snd kv)) eps = true ->
  numeric_p95 eps = true.
Proof.
  unfold numeric_p95. intros H. apply forallb_forall. intros x Hx.
  apply (forallb_In _ _ _ H) in Hx. unfold endpoint_numeric in Hx.
  repeat (apply andb_prop in Hx; destruct Hx as [Hx ?]).
  now destruct (ep_p95 (snd x)).
Qed.

(** Where the recorded metrics yield pairwise distinct identifiers, Endpoint
    Stats lists them in the order of the scan. *)
Lemma endpoints_from_distinct (items : list (string * json))
    (acc : dict endpoint_stats) :
  NoDup (keys acc
         ++ map (fun item => endpoint_of (fst item)) (filter recorded items)) ->
  endpoints_from items acc =
  acc ++ map (fun item =>
                (endpoint_of (fst item), record_of (values_of (snd item))))
           (filter recorded items).
Proof.
  revert acc. induction items as [|it rest IH]; intros acc Hnd.
  - simpl. now rewrite app_nil_r.
  - change (endpoints_from (it :: rest) acc)
      with (endpoints_from rest (endpoints_step acc it)).
    unfold endpoints_step. cbn [filter] in Hnd |- *.
    destruct (recorded it); [|now apply IH].
    cbn [map] in *.
    assert (~ In (endpoint_of (fst it)) (keys acc)) as Hfresh.
    { apply NoDup_remove_2 in Hnd. intros Hin. apply Hnd.
      apply in_or_app. now left. }
    rewrite (dict_set_absent _ _ _ Hfresh).
    rewrite IH.
    + now rewrite <- app_assoc.
    + unfold keys in *. rewrite map_app, <- app_assoc. exact Hnd.
Qed.

Lemma existsb_eqb_In (k : string) (l : list string) :
  existsb (String.eqb k) l = true <-> In k l.
Proof.
  rewrite existsb_exists. split.
  - intros (x & Hx & E). apply String.eqb_eq in E. now subst.
  - intros H. exists k. split; [exact H | apply String.eqb_refl].
Qed.

Lemma keys_dict_set_order {V : Type} (k : string) (v : V) (d : dict V) :
  keys (dict_set k v d) = add_key (keys d) k.
Proof.
  unfold add_key. destruct (existsb (String.eqb k) (keys d)) eqn:E.
  - apply keys_set_present. now apply existsb_eqb_In.
  - rewrite dict_set_absent.
    + unfold keys. now rewrite map_app.
    + intros H. apply existsb_eqb_In in H. congruence.
Qed.

(** Endpoint Stats lists the identifiers in the order in which the scan
    of the metrics first records each of them. *)
Lemma endpoints_from_order (items : list (string * json))
    (acc : dict endpoint_stats) :
  keys (endpoints_from items acc) =
  fold_left add_key
    (map (fun item => endpoint_of (fst item)) (filter recorded items))
    (keys acc).
Proof.
  revert acc. induction items as [|it rest IH]; intros acc; [reflexivity|].
  change (endpoints_from (it :: rest) acc)
    with (endpoints_from rest (endpoints_step acc it)).
  rewrite IH. unfold endpoints_step. cbn [filter].
  destruct (recorded it); [|reflexivity].
  cbn [map fold_left]. now rewrite keys_dict_set_order.
Qed.

Lemma In_dict_get {V : Type} (k : string) (v : V) (d : dict V) :
  NoDup (keys d) -> In (k, v) d -> dict_get k d = Some v.
Proof.
  induction d as [|[k' v'] d IH]; simpl; [tauto|].
  intros Hnd Hin. apply NoDup_cons_iff in Hnd. destruct Hnd as [Hk Hnd].
  destruct Hin as [[= -> ->]|Hin].
  - now rewrite String.eqb_refl.
  - destruct (String.eqb_spec k k') as [->|_]; [|now apply IH].
    exfalso. apply Hk. apply in_map_iff. now exists (k', v).
Qed.

(** The part of C4 that the code meets: where the prefix occurs only at
    the front of the name of a recorded metric, and no two recorded
    metrics share an identifier, the metric is recorded under its name
    without the prefix, with its seven fields, 0 for an absent one. *)
Lemma single_prefix_metric_recorded (top : dict json) (name : string)
    (m : json) :
  raw_report (JDict top) = true ->
  duration_fits (JDict top) = true ->
  In (name, m) (metrics_of top) ->
  recorded (name, m) = true ->
  contains latency_prefix (spec_endpoint_of name) = false ->
  NoDup (map (fun item => endpoint_of (fst item))
           (filter recorded (metrics_of top))) ->
  exists perf,
    extract_performance_data (JDict top) = Ok (Some perf) /\
    dict_get (spec_endpoint_of name) (endpoints perf)
    = Some (mk_endpoint_stats
              (field (values_of m) "avg") (field (values_of m) "min")
              (field (values_of m) "med") (field (values_of m) "p(90)")
              (field (values_of m) "p(95)") (field (values_of m) "p(99)")
              (field (values_of m) "max")).
Proof.
  intros Hshape Hfit Hin Hr Hc Hnd. eexists. split.
  - apply extract_raw_report;
      [exact Hshape | | now apply duration_fits_false].
    intros ->. destruct Hin.
  - cbn [endpoints]. rewrite (endpoints_from_distinct _ [] Hnd). cbn [app].
    destruct (recorded_inv _ Hr) as [Hp _]. cbn [fst] in Hp.
    rewrite <- (endpoint_of_single_prefix name Hp Hc).
    apply In_dict_get.
    + unfold keys. rewrite map_map. exact Hnd.
    + apply in_map_iff. exists (name, m). split; [reflexivity|].
      apply filter_In. now split.
Qed.

(** ** The duration and the fields read by path *)

Lemma py_truediv_returns (v o : json) (d : Q) :
  py_truediv v d = Ok o -> exists x, number v = Some x /\ o = JNum (x / d).
Proof.
  destruct v; cbn [py_truediv number]; try discriminate.
  - intros [= <-]. now eexists.
  - destruct (overflows (q / d)); [discriminate|].
    intros [= <-]. now eexists.
Qed.

Lemma extract_duration (data : json) (perf : performance) :
  extract_performance_data data = Ok (Some perf) ->
  exists top st ms x,
    data = JDict top /\
    JDict st = match dict_get "state" top with Some s => s | None => empty end
    /\ ms = match dict_get "testRunDurationMs" st with
            | Some v => v
            | None => zero
            end
    /\ number ms = Some x
    /\ duration_s (overall perf) = JNum (x / 1000).
Proof.
  unfold extract_performance_data.
  destruct (negb (truthy data)); [discriminate|]. intros H.
  bind_inv H. injection H as <-. cbn [overall duration_s].
  repeat match goal with
  | E : py_truediv _ _ = Ok _ |- _ =>
      apply py_truediv_returns in E; destruct E as (x & Hx & ->)
  | E : py_get _ "testRunDurationMs" _ = Ok _ |- _ =>
      apply py_get_returns in E; destruct E as (st & -> & ->)
  | E : py_get _ "state" _ = Ok _ |- _ =>
      apply py_get_returns in E; destruct E as (top & -> & Hst)
  end.
  exists top, st, (match dict_get "testRunDurationMs" st with
                   | Some v => v
                   | None => zero
                   end), x.
  now repeat split.
Qed.


(** ** The ranking in terms of the [p95] field *)

Lemma numeric_p95_fields (eps ranking : list (string * endpoint_stats)) :
  numeric_p95 eps = true -> Permutation eps ranking ->
  Forall (fun x => number (ep_p95 (snd x)) = Some (p95_key x)) ranking.
Proof.
  intros Hn Hperm. apply Forall_forall. intros x Hx.
  apply (Permutation_in _ (Permutation_sym Hperm)) in Hx.
  unfold numeric_p95 in Hn. rewrite forallb_forall in Hn.
  specialize (Hn x Hx). unfold p95_key.
  now destruct (number (ep_p95 (snd x))).
Qed.

Lemma has_p95_filter (q : Q) (l : list (string * endpoint_stats)) :
  Forall (fun x => number (ep_p95 (snd x)) = Some (p95_key x)) l ->
  filter (has_p95 q) l = filter (fun x => Qeq_bool (p95_key x) q) l.
Proof.
  intros H. apply filter_ext_in. intros x Hx.
  rewrite Forall_forall in H. unfold has_p95. now rewrite (H x Hx).
Qed.

Lemma descending_fields (l : list (string * endpoint_stats)) :
  Forall (fun x => number (ep_p95 (snd x)) = Some (p95_key x)) l ->
  StronglySorted (fun a b => p95_key b <= p95_key a) l ->
  StronglySorted
    (fun a b => exists qa qb,
       number (ep_p95 (snd a)) = Some qa /\
       number (ep_p95 (snd b)) = Some qb /\ qb <= qa) l.
Proof.
  intros Hnum Hs. induction Hs as [|a l Hl IH Ha]; [constructor|].
  apply Forall_cons_iff in Hnum. destruct Hnum as [Hna Hnl].
  constructor; [now apply IH|].
  rewrite Forall_forall in *. intros b Hb.
  exists (p95_key a), (p95_key b). repeat split; auto.
Qed.

(** * The claims *)

(** C1.  Extraction never fails on a missing key.  No input makes
    [extract_performance_data] raise [KeyError]; and on every Raw Report,
    whichever of its keys are absent, each lookup of [metrics], [state],
    a [values] mapping or a numeric field resolves to the empty mapping
    or to a number: the call returns, either nothing (for the empty
    report) or statistics all of whose fields are numbers, and the one
    exception it can raise instead is the [OverflowError] of the
    division by 1000 of a [testRunDurationMs] that is present and too
    large, never the absence of a key. *)
Theorem extract_never_fails_on_missing_key (data : json) :
  raises KeyError (extract_performance_data data) = false /\
  (raw_report data = true ->
   match extract_performance_data data with
   | Ok None => data = JDict []
   | Ok (Some perf) =>
       overall_numeric (overall perf) = true /\
       forallb (fun kv => endpoint_numeric (snd kv)) (endpoints perf) = true
   | Raise e => e = OverflowError /\ duration_fits data = false
   end).
Proof.
  split; [apply extract_no_KeyError|].
  intros Hshape. destruct data as [| | | | |top]; try discriminate.
  destruct top as [|kv top']; [reflexivity|].
  rewrite (extract_raw_report_division _ Hshape) by discriminate.
  rewrite (duration_fits_ms _ Hshape).
  destruct (overflows (duration_ms (kv :: top') / 1000)); [now split|].
  cbn [overall endpoints]. split.
  - now apply overall_of_numeric.
  - apply endpoints_from_numeric; [|reflexivity].
    now apply metrics_of_shape.
Qed.

Lemma extract_never_fails_on_missing_key_witness :
  match extract_performance_data sparse_report with
  | Ok None => sparse_report = JDict []
  | Ok (Some perf) =>
      overall_numeric (overall perf) = true /\
      forallb (fun kv => endpoint_numeric (snd kv)) (endpoints perf) = true
  | Raise e => e = OverflowError /\ duration_fits sparse_report = false
  end.
Proof.
  apply (extract_never_fails_on_missing_key sparse_report). reflexivity.
Defined.

(** C2, as stated, fails: the empty mapping is a Raw Report, and the
    guard [if not data] sends it to [None] like an absent input; and a
    Raw Report whose test duration is an integer too large for the
    division by 1000 gets no pair either, the call ends in
    [OverflowError]. *)
Lemma extract_empty_report_is_None :
  (raw_report (JDict []) = true /\
   extract_performance_data (JDict []) = Ok None) /\
  (raw_report huge_duration_report = true /\
   extract_performance_data huge_duration_report = Raise OverflowError).
Proof. split; split; vm_compute; reflexivity. Qed.

(** C2, amended.  [extract_performance_data] returns [None] exactly when
    its input is falsy, that is absent ([None]) or the empty mapping; for
    every non-empty Raw Report whose [state.testRunDurationMs / 1000] is
    not too large for a float it returns the pair of Overall Stats and
    Endpoint Stats. *)
Theorem extract_None_exactly_when_falsy (data : json) :
  (extract_performance_data data = Ok None <-> truthy data = false) /\
  extract_performance_data JNull = Ok None /\
  extract_performance_data (JDict []) = Ok None /\
  (raw_report data = true -> truthy data = true ->
   duration_fits data = true ->
   exists perf, extract_performance_data data = Ok (Some perf)).
Proof.
  split; [apply extract_None_iff|]. do 2 (split; [reflexivity|]).
  intros Hshape Ht Hfit. destruct data as [| | | | |top]; try discriminate.
  eexists. apply extract_raw_report;
    [exact Hshape | | now apply duration_fits_false].
  intros ->. discriminate Ht.
Qed.

Lemma extract_None_exactly_when_falsy_witness :
  exists perf, extract_performance_data sparse_report = Ok (Some perf).
Proof.
  apply (extract_None_exactly_when_falsy sparse_report); reflexivity.
Defined.

(** C3, as stated, fails on three Raw Reports without a [metrics] key:
    the empty mapping, for which nothing is returned; a report with a
    [state], whose duration is not 0; and a report whose test duration
    is an integer too large for the division by 1000, on which the call
    fails with [OverflowError]. *)
Lemma no_metrics_not_all_zero :
  (raw_report (JDict []) = true /\
   path ["metrics"] (JDict []) = None /\
   extract_performance_data (JDict []) = Ok None) /\
  (raw_report state_only_report = true /\
   path ["metrics"] state_only_report = None /\
   exists perf,
     extract_performance_data state_only_report = Ok (Some perf) /\
     duration_s (overall perf) = JNum (5000 / 1000) /\
     ~ 5000 / 1000 == 0) /\
  (raw_report huge_duration_report = true /\
   path ["metrics"] huge_duration_report = None /\
   extract_performance_data huge_duration_report = Raise OverflowError).
Proof.
  split; [now repeat split|]. split.
  - split; [reflexivity|]. split; [reflexivity|].
    eexists. split; [vm_compute; reflexivity|].
    split; [reflexivity|]. discriminate.
  - repeat split; vm_compute; reflexivity.
Qed.

(** C3, amended.  For every non-empty Raw Report without a [metrics] key
    whose [state.testRunDurationMs / 1000] is not too large for a float,
    extraction returns an empty Endpoint Stats mapping and an Overall
    Stats record whose fields are all 0 except [duration_s], which is
    [state.testRunDurationMs / 1000], and 0 too when [state] or that
    field is absent. *)
Theorem no_metrics_zero_stats (top : dict json) :
  raw_report (JDict top) = true -> truthy (JDict top) = true ->
  duration_fits (JDict top) = true ->
  dict_get "metrics" top = None ->
  exists perf q,
    extract_performance_data (JDict top) = Ok (Some perf) /\
    endpoints perf = [] /\
    overall perf =
      mk_overall_stats zero zero zero zero zero zero zero zero zero zero
        (JNum q) zero zero zero zero zero zero /\
    (dict_get "state" top = None -> q == 0) /\
    (forall st, dict_get "state" top = Some (JDict st) ->
       dict_get "testRunDurationMs" st = None -> q == 0) /\
    (forall st x, dict_get "state" top = Some (JDict st) ->
       dict_get "testRunDurationMs" st = Some (JNum x) -> q = x / 1000).
Proof.
  intros Hshape Ht Hfit Hm.
  exists (mk_performance (overall_of top) (endpoints_from (metrics_of top) [])).
  exists (duration_ms top / 1000).
  split.
  { apply extract_raw_report;
      [exact Hshape | | now apply duration_fits_false].
    intros ->. discriminate Ht. }
  cbn [endpoints overall]. split.
  { unfold metrics_of. now rewrite Hm. }
  split.
  { unfold overall_of. cbv zeta.
    rewrite !(named_values_no_metrics top _ Hm). reflexivity. }
  destruct (duration_ms_cases top) as (H1 & H2 & H3).
  repeat split; auto.
  intros st x Hs Hx. now rewrite (H3 st x Hs Hx).
Qed.

Lemma no_metrics_zero_stats_witness :
  exists perf q,
    extract_performance_data state_only_report = Ok (Some perf) /\
    endpoints perf = [] /\
    overall perf =
      mk_overall_stats zero zero zero zero zero zero zero zero zero zero
        (JNum q) zero zero zero zero zero zero /\
    (dict_get "state" [("state", JDict [("testRunDurationMs", JNum 5000)])]
       = None -> q == 0) /\
    (forall st,
       dict_get "state" [("state", JDict [("testRunDurationMs", JNum 5000)])]
         = Some (JDict st) ->
       dict_get "testRunDurationMs" st = None -> q == 0) /\
    (forall st x,
       dict_get "state" [("state", JDict [("testRunDurationMs", JNum 5000)])]
         = Some (JDict st) ->
       dict_get "testRunDurationMs" st = Some (JNum x) -> q = x / 1000).
Proof.
  apply (no_metrics_zero_stats
           [("state", JDict [("testRunDurationMs", JNum 5000)])]);
    vm_compute; reflexivity.
Defined.

(** C4.  The code computes the endpoint identifier with
    [str.replace], which removes every occurrence of the prefix and not
    only the leading one.  The metric [latency_ms_a_latency_ms_b] starts
    with the prefix and has a non-empty [values] mapping; the name
    without its leading prefix is [a_latency_ms_b], yet the only entry
    recorded is [a_b].  For the same reason [latency_ms_a] and
    [latency_ms_latency_ms_a] share the entry [a], which holds the fields
    of the second and not those of the first. *)
Theorem endpoint_identifier_loses_inner_prefix :
  (startswith "latency_ms_a_latency_ms_b" latency_prefix = true /\
   spec_endpoint_of "latency_ms_a_latency_ms_b" = "a_latency_ms_b" /\
   endpoint_of "latency_ms_a_latency_ms_b" = "a_b" /\
   exists perf,
     extract_performance_data nested_prefix_report = Ok (Some perf) /\
     keys (endpoints perf) = ["a_b"] /\
     dict_get "a_latency_ms_b" (endpoints perf) = None) /\
  (exists perf,
     extract_performance_data colliding_report = Ok (Some perf) /\
     endpoints perf =
       [("a", mk_endpoint_stats (JNum 2) zero zero zero zero zero zero)]).
Proof.
  split.
  - repeat split. eexists. repeat split.
  - eexists. split; reflexivity.
Qed.

(** C5.  A metric whose name does not start with [latency_ms_] leaves
    nothing in Endpoint Stats: its iteration of the loop returns the
    mapping as it was; the mapping returned by extraction is the one the
    loop builds from the prefixed metrics alone; and every endpoint
    identifier in it is the one of a metric whose name starts with the
    prefix. *)
Theorem unprefixed_metrics_never_recorded :
  (forall acc name m,
     startswith name latency_prefix = false ->
     endpoint_step acc (name, m) = Ok acc) /\
  (forall data perf,
     extract_performance_data data = Ok (Some perf) ->
     exists top, data = JDict top /\
       endpoint_loop
         (filter (fun item => startswith (fst item) latency_prefix)
            (metrics_of top)) []
       = Ok (endpoints perf) /\
       forall e, In e (keys (endpoints perf)) ->
         exists name m, In (name, m) (metrics_of top) /\
           startswith name latency_prefix = true /\ e = endpoint_of name).
Proof.
  split.
  - intros acc name m Hp. unfold endpoint_step. now rewrite Hp.
  - intros data perf H. apply extract_returns in H.
    destruct H as (top & -> & Hl & He).
    exists top. split; [reflexivity|]. split.
    + now rewrite endpoint_loop_filter.
    + intros e Hin. apply in_map_iff in Hin.
      destruct Hin as ([e' r] & E & Hin). simpl in E. subst e'.
      rewrite He in Hin. apply endpoints_from_provenance in Hin.
      destruct Hin as [[]|([name m] & Hi & Hr & -> & _)].
      exists name, m. apply recorded_inv in Hr. now repeat split.
Qed.

Lemma unprefixed_metrics_never_recorded_witness :
  endpoint_step [] ("http_reqs", JDict [("values", JDict [("count", JNum 7)])])
  = Ok [] /\
  exists top, mixed_report = JDict top /\
    endpoint_loop
      (filter (fun item => startswith (fst item) latency_prefix)
         (metrics_of top)) []
    = Ok [("login", mk_endpoint_stats zero zero zero zero (JNum 200) zero zero);
          (EmptyString,
           mk_endpoint_stats zero zero zero zero (JNum 5) zero zero);
          ("checkout",
           mk_endpoint_stats zero zero zero zero (JNum 500) zero zero)] /\
    forall e, In e ["login"; EmptyString; "checkout"] ->
      exists name m, In (name, m) (metrics_of top) /\
        startswith name latency_prefix = true /\ e = endpoint_of name.
Proof.
  destruct unprefixed_metrics_never_recorded as [Hstep Hall]. split.
  - apply Hstep. reflexivity.
  - apply (Hall mixed_report
      (mk_performance
         (mk_overall_stats zero zero zero zero zero zero zero (JNum 7) zero
            zero (JNum (0 / 1000)) zero zero zero zero zero zero)
         [("login",
           mk_endpoint_stats zero zero zero zero (JNum 200) zero zero);
          (EmptyString,
           mk_endpoint_stats zero zero zero zero (JNum 5) zero zero);
          ("checkout",
           mk_endpoint_stats zero zero zero zero (JNum 500) zero zero)])).
    reflexivity.
Defined.

(** C6.  A prefixed metric whose [values] mapping is empty or absent is
    not recorded.  Its iteration of the loop returns the mapping as it
    was.  Every entry of Endpoint Stats is the record of a prefixed metric
    with a non-empty [values] mapping, so none is made of defaults alone
    for a metric without values; and the endpoint identifier of a metric
    without values is absent from the mapping, unless a recorded metric
    yields the same identifier. *)
Theorem empty_values_never_recorded :
  (forall acc name fs,
     startswith name latency_prefix = true ->
     dict_get "values" fs = None \/ dict_get "values" fs = Some (JDict []) ->
     endpoint_step acc (name, JDict fs) = Ok acc) /\
  (forall data perf,
     extract_performance_data data = Ok (Some perf) ->
     exists top, data = JDict top /\
       (forall e r, In (e, r) (endpoints perf) ->
          exists name m, In (name, m) (metrics_of top) /\
            startswith name latency_prefix = true /\
            values_of m <> [] /\
            e = endpoint_of name /\ r = record_of (values_of m)) /\
       (forall name m, In (name, m) (metrics_of top) ->
          startswith name latency_prefix = true ->
          values_of m = [] ->
          forallb (fun item =>
            negb (recorded item
                  && String.eqb (endpoint_of (fst item)) (endpoint_of name)))
            (metrics_of top) = true ->
          dict_get (endpoint_of name) (endpoints perf) = None)).
Proof.
  split.
  - intros acc name fs Hp Hv. unfold endpoint_step. rewrite Hp. simpl.
    now destruct Hv as [-> | ->].
  - intros data perf H. apply extract_returns in H.
    destruct H as (top & -> & _ & He).
    exists top. split; [reflexivity|]. split.
    + intros e r Hin. rewrite He in Hin.
      apply endpoints_from_provenance in Hin.
      destruct Hin as [[]|([name m] & Hi & Hr & -> & ->)].
      exists name, m. apply recorded_inv in Hr. destruct Hr.
      now repeat split.
    + intros name m _ _ _ Hno. rewrite He. now apply endpoints_from_absent.
Qed.

Lemma empty_values_never_recorded_witness :
  endpoint_step [] ("latency_ms_cart", JDict [("values", JDict [])]) = Ok [] /\
  endpoint_step [] ("latency_ms_pay", JDict []) = Ok [] /\
  dict_get "cart"
    [("login", mk_endpoint_stats zero zero zero zero (JNum 200) zero zero);
     (EmptyString, mk_endpoint_stats zero zero zero zero (JNum 5) zero zero);
     ("checkout", mk_endpoint_stats zero zero zero zero (JNum 500) zero zero)]
  = None.
Proof.
  destruct empty_values_never_recorded as [Hstep Hall].
  split; [|split].
  - apply Hstep; [reflexivity | right; reflexivity].
  - apply Hstep; [reflexivity | left; reflexivity].
  - destruct (Hall mixed_report
      (mk_performance
         (mk_overall_stats zero zero zero zero zero zero zero (JNum 7) zero
            zero (JNum (0 / 1000)) zero zero zero zero zero zero)
         [("login",
           mk_endpoint_stats zero zero zero zero (JNum 200) zero zero);
          (EmptyString,
           mk_endpoint_stats zero zero zero zero (JNum 5) zero zero);
          ("checkout",
           mk_endpoint_stats zero zero zero zero (JNum 500) zero zero)])
      eq_refl) as (top & Etop & _ & Habs).
    injection Etop as <-.
    apply (Habs "latency_ms_cart" (JDict [("values", JDict [])])).
    + simpl. tauto.
    + reflexivity.
    + reflexivity.
    + reflexivity.
Defined.

(** C7.  The ranking
    [sorted(endpoints.items(), key=lambda x: x[1]['p95'], reverse=True)]
    of an Endpoint Stats mapping with numeric [p95] fields holds the same
    entries, in descending order of their [p95] field, and is stable: the
    entries of any one [p95] value stand in the ranking in the order in
    which the mapping lists them; the console summary shows the first 5
    entries of this ranking.  The order in which the mapping returned by
    extraction lists the endpoints is the order in which the scan of the
    metrics mapping first records them. *)
Theorem ranking_descending_and_stable :
  (forall eps : dict endpoint_stats,
     numeric_p95 eps = true ->
     exists ranking,
       sorted_endpoints eps = Some ranking /\
       Permutation eps ranking /\
       StronglySorted
         (fun a b => exists qa qb,
            number (ep_p95 (snd a)) = Some qa /\
            number (ep_p95 (snd b)) = Some qb /\ qb <= qa) ranking /\
       (forall q, filter (has_p95 q) ranking = filter (has_p95 q) eps) /\
       top5 eps = Some (firstn 5 ranking)) /\
  (forall data perf,
     extract_performance_data data = Ok (Some perf) ->
     exists top, data = JDict top /\
       keys (endpoints perf) = scan_order (metrics_of top)).
Proof.
  split.
  - intros eps Hn. exists (sorted p95_key true eps).
    pose proof (sorted_reverse_perm p95_key eps) as Hperm.
    pose proof (numeric_p95_fields eps _ Hn Hperm) as Hnum.
    pose proof (numeric_p95_fields eps eps Hn (Permutation_refl eps)) as Hnum0.
    unfold top5, sorted_endpoints. rewrite Hn. split; [reflexivity|].
    split; [exact Hperm|].
    split; [apply descending_fields;
            [exact Hnum | apply sorted_reverse_descending]|].
    split; [|reflexivity].
    intros q. rewrite (has_p95_filter q _ Hnum), (has_p95_filter q _ Hnum0).
    apply sorted_reverse_stable.
  - intros data perf H. apply extract_returns in H.
    destruct H as (top & -> & _ & ->). exists top. split; [reflexivity|].
    apply endpoints_from_order.
Qed.

Lemma ranking_descending_and_stable_witness :
  (exists ranking,
     sorted_endpoints tied_endpoints = Some ranking /\
     Permutation tied_endpoints ranking /\
     StronglySorted
       (fun a b => exists qa qb,
          number (ep_p95 (snd a)) = Some qa /\
          number (ep_p95 (snd b)) = Some qb /\ qb <= qa) ranking /\
     (forall q, filter (has_p95 q) ranking
                = filter (has_p95 q) tied_endpoints) /\
     top5 tied_endpoints = Some (firstn 5 ranking)) /\
  (exists top, mixed_report = JDict top /\
     ["login"; EmptyString; "checkout"] = scan_order (metrics_of top)).
Proof.
  destruct ranking_descending_and_stable as [Hrank Horder]. split.
  - apply (Hrank tied_endpoints). reflexivity.
  - apply (Horder mixed_report
      (mk_performance
         (mk_overall_stats zero zero zero zero zero zero zero (JNum 7) zero
            zero (JNum (0 / 1000)) zero zero zero zero zero zero)
         [("login",
           mk_endpoint_stats zero zero zero zero (JNum 200) zero zero);
          (EmptyString,
           mk_endpoint_stats zero zero zero zero (JNum 5) zero zero);
          ("checkout",
           mk_endpoint_stats zero zero zero zero (JNum 500) zero zero)])).
    vm_compute. reflexivity.
Defined.

(** The scenario of the specification, and a ranking with ties. *)
Example ranking_checkout_before_login :
  option_map (map fst)
    (sorted_endpoints
       [("login", mk_endpoint_stats zero zero zero zero (JNum 200) zero zero);
        ("checkout",
         mk_endpoint_stats zero zero zero zero (JNum 500) zero zero)])
  = Some ["checkout"; "login"].
Proof. reflexivity. Qed.

Example ranking_of_tied_endpoints :
  option_map (map fst) (sorted_endpoints tied_endpoints)
  = Some ["pay"; "cart"; "checkout"; "login"; "search"; "home"] /\
  option_map (map fst) (top5 tied_endpoints)
  = Some ["pay"; "cart"; "checkout"; "login"; "search"].
Proof. split; reflexivity. Qed.

(** C8.  Whenever extraction yields statistics, [duration_s] is the
    value of [state.testRunDurationMs] divided by 1000, and it is 0 when
    the [state] mapping or its [testRunDurationMs] field is absent.  On a
    non-empty Raw Report extraction does yield statistics, unless that
    quotient is too large for a float, in which case the division raises
    [OverflowError]. *)
Theorem duration_is_ms_over_1000 (data : json) :
  (forall perf, extract_performance_data data = Ok (Some perf) ->
   exists q, duration_s (overall perf) = JNum q /\
     (forall v, path ["state"; "testRunDurationMs"] data = Some v ->
        exists x, number v = Some x /\ q = x / 1000) /\
     (path ["state"] data = None -> q == 0) /\
     (forall st, path ["state"] data = Some (JDict st) ->
        dict_get "testRunDurationMs" st = None -> q == 0)) /\
  (raw_report data = true -> truthy data = true ->
   if duration_fits data
   then exists perf, extract_performance_data data = Ok (Some perf)
   else extract_performance_data data = Raise OverflowError).
Proof.
  split.
  - intros perf H. apply extract_duration in H.
    destruct H as (top & st & ms & x & -> & Hst & Hms & Hx & Hd).
    exists (x / 1000). split; [exact Hd|]. cbn [path].
    destruct (dict_get "state" top) as [s|].
    + subst s. split; [|split].
      * intros v Hv.
        destruct (dict_get "testRunDurationMs" st) as [w|]; [|discriminate].
        injection Hv as <-. subst ms. now exists x.
      * discriminate.
      * intros st' [= <-] Hnone. rewrite Hnone in Hms. subst ms.
        injection Hx as <-. reflexivity.
    + unfold empty in Hst. injection Hst as ->. simpl in Hms. subst ms.
      injection Hx as <-. split; [|split].
      * discriminate.
      * reflexivity.
      * discriminate.
  - intros Hshape Ht. destruct data as [| | | | |top]; try discriminate.
    assert (top <> []) as Hne by (intros ->; discriminate Ht).
    rewrite (duration_fits_ms top Hshape),
      (extract_raw_report_division top Hshape Hne).
    destruct (overflows (duration_ms top / 1000)); cbn [negb];
      [reflexivity | now eexists].
Qed.

Lemma duration_is_ms_over_1000_witness :
  (exists q,
     JNum (30000 / 1000) = JNum q /\
     (forall v,
        path ["state"; "testRunDurationMs"] fixture_report = Some v ->
        exists x, number v = Some x /\ q = x / 1000) /\
     (path ["state"] fixture_report = None -> q == 0) /\
     (forall st, path ["state"] fixture_report = Some (JDict st) ->
        dict_get "testRunDurationMs" st = None -> q == 0)) /\
  (exists perf, extract_performance_data fixture_report = Ok (Some perf)) /\
  extract_performance_data huge_duration_report = Raise OverflowError.
Proof.
  split; [|split].
  - apply (proj1 (duration_is_ms_over_1000 fixture_report)
             (mk_performance
                (mk_overall_stats (JNum 120) (JNum 300) (JNum 450) (JNum 900)
                   zero zero zero (JNum 10000) (JNum 55.5) zero
                   (JNum (30000 / 1000)) zero zero zero zero zero zero) [])).
    vm_compute. reflexivity.
  - apply (proj2 (duration_is_ms_over_1000 fixture_report) eq_refl eq_refl).
  - apply (proj2 (duration_is_ms_over_1000 huge_duration_report)
             eq_refl eq_refl).
Defined.



(** C10.  A metric named exactly [latency_ms_], with a non-empty [values]
    mapping, is recorded under the empty string.  For every Raw Report
    with such a metric the loop over the metrics records an entry whose
    endpoint name is the empty string; every Endpoint Stats mapping that
    extraction returns for the report has that entry; and extraction does
    return one, unless the division of the test duration by 1000
    overflows. *)
Theorem bare_prefix_gives_empty_endpoint_name (data m : json) :
  raw_report data = true ->
  path ["metrics"; "latency_ms_"] data = Some m ->
  values_of m <> [] ->
  endpoint_of "latency_ms_" = EmptyString /\
  (exists top recorded_endpoints r,
     data = JDict top /\
     endpoint_loop (metrics_of top) [] = Ok recorded_endpoints /\
     dict_get EmptyString recorded_endpoints = Some r) /\
  (forall perf,
     extract_performance_data data = Ok (Some perf) ->
     exists r, dict_get EmptyString (endpoints perf) = Some r) /\
  (duration_fits data = true ->
   exists perf, extract_performance_data data = Ok (Some perf)).
Proof.
  intros Hshape Hp Hv. destruct data as [| | | | |top]; try discriminate.
  assert (top <> []) as Hne by (intros ->; discriminate Hp).
  assert (In ("latency_ms_", m) (metrics_of top)) as Hin.
  { cbn [path] in Hp. unfold metrics_of.
    destruct (dict_get "metrics" top) as [[| | | | |ms]|]; try discriminate.
    destruct (dict_get "latency_ms_" ms) as [m'|] eqn:E; [|discriminate].
    injection Hp as ->. now apply dict_get_In. }
  assert (recorded ("latency_ms_", m) = true) as Hr.
  { unfold recorded. cbn [fst snd]. now destruct (values_of m). }
  pose proof (recorded_key_present _ [] _ Hin Hr) as Hk. cbn [fst] in Hk.
  change (endpoint_of "latency_ms_") with EmptyString in Hk.
  destruct (dict_get EmptyString (endpoints_from (metrics_of top) []))
    as [r|] eqn:E; [|apply dict_get_None in E; contradiction].
  split; [reflexivity|]. split; [|split].
  - exists top, (endpoints_from (metrics_of top) []), r.
    split; [reflexivity|]. split; [|exact E].
    apply endpoint_loop_shape. now apply metrics_of_shape.
  - intros perf Hex. apply extract_returns in Hex.
    destruct Hex as (top' & [= <-] & _ & ->). now exists r.
  - intros Hfit. eexists.
    apply extract_raw_report; [exact Hshape | exact Hne|].
    now apply duration_fits_false.
Qed.

Lemma bare_prefix_gives_empty_endpoint_name_witness :
  endpoint_of "latency_ms_" = EmptyString /\
  (exists top recorded_endpoints r,
     mixed_report = JDict top /\
     endpoint_loop (metrics_of top) [] = Ok recorded_endpoints /\
     dict_get EmptyString recorded_endpoints = Some r) /\
  (forall perf,
     extract_performance_data mixed_report = Ok (Some perf) ->
     exists r, dict_get EmptyString (endpoints perf) = Some r) /\
  (duration_fits mixed_report = true ->
   exists perf, extract_performance_data mixed_report = Ok (Some perf)).
Proof.
  apply (bare_prefix_gives_empty_endpoint_name mixed_report
           (JDict [("values", JDict [("p(95)", JNum 5)])])).
  - reflexivity.
  - reflexivity.
  - discriminate.
Defined.

(** * Further properties of the script *)

(** ** Extraction: inputs that are not Raw Reports *)

Lemma metrics_ok_shape (top : dict json) :
  metrics_ok top = true ->
  py_get (JDict top) "metrics" empty = Ok (JDict (metrics_of top)) /\
  forallb (fun kv => metric_shape (snd kv)) (metrics_of top) = true.
Proof.
  unfold metrics_ok, metrics_of. simpl. intros H.
  destruct (dict_get "metrics" top) as [m|]; [|now split].
  destruct m; simpl in H; try discriminate. now split.
Qed.

(** With a well-shaped [metrics], the call gets as far as the lookup of
    [state] with every other field resolved. *)
Lemma extract_up_to_state (top : dict json) :
  metrics_ok top = true -> top <> [] ->
  extract_performance_data (JDict top) =
  (state <- py_get (JDict top) "state" empty ;;
   ms <- py_get state "testRunDurationMs" zero ;;
   d <- py_truediv ms 1000 ;;
   Ok (Some (mk_performance (with_duration (overall_of top) d)
               (endpoints_from (metrics_of top) [])))).
Proof.
  intros Hm Hne. unfold extract_performance_data.
  replace (negb (truthy (JDict top))) with false
    by (destruct top; [contradiction | reflexivity]).
  destruct (metrics_ok_shape top Hm) as [-> Hms]. cbn [bind].
  destruct (named_values_shape _ "http_req_duration" Hms) as [-> _].
  destruct (named_values_shape _ "http_reqs" Hms) as [-> _].
  destruct (named_values_shape _ "http_req_failed" Hms) as [-> _].
  destruct (named_values_shape _ "vus" Hms) as [-> _].
  destruct (named_values_shape _ "checks" Hms) as [-> _].
  cbn [bind py_items].
  rewrite (endpoint_loop_shape _ [] Hms). cbn [bind].
  rewrite !py_get_field. cbn [bind]. reflexivity.
Qed.

(** X1.  A document that is truthy and not a mapping (a non-empty array
    or string, a non-zero number, [true]) makes
    [extract_performance_data] raise [AttributeError] at [data.get]. *)
Theorem extract_rejects_non_mapping (data : json) :
  truthy data = true -> is_dict data = false ->
  extract_performance_data data = Raise AttributeError.
Proof.
  intros Ht Hd. unfold extract_performance_data. rewrite Ht. simpl.
  destruct data; try reflexivity. discriminate Hd.
Qed.

Lemma extract_rejects_non_mapping_witness :
  extract_performance_data (JList [JNum 1]) = Raise AttributeError.
Proof. apply extract_rejects_non_mapping; reflexivity. Defined.

(** X2.  A default stands in for an absent key only.  Where [metrics] is
    present and is not a mapping ([null], a number, an array),
    extraction raises [AttributeError]; and so it does, with a
    well-shaped [metrics], where [state] is present and not a mapping. *)
Theorem present_non_mapping_is_not_defaulted (top : dict json) (v : json) :
  is_dict v = false ->
  (dict_get "metrics" top = Some v ->
   extract_performance_data (JDict top) = Raise AttributeError) /\
  (metrics_ok top = true -> dict_get "state" top = Some v ->
   extract_performance_data (JDict top) = Raise AttributeError).
Proof.
  intros Hv. split.
  - intros Hm. unfold extract_performance_data.
    replace (negb (truthy (JDict top))) with false
      by (destruct top; [discriminate Hm | reflexivity]).
    simpl. rewrite Hm. destruct v; try reflexivity. discriminate Hv.
  - intros Hm Hs. rewrite (extract_up_to_state top Hm)
      by (intros ->; discriminate Hs).
    simpl. rewrite Hs. destruct v; try reflexivity. discriminate Hv.
Qed.

Lemma present_non_mapping_is_not_defaulted_witness :
  extract_performance_data (JDict [("metrics", JNull)])
  = Raise AttributeError /\
  extract_performance_data (JDict [("state", JNull)]) = Raise AttributeError.
Proof.
  split.
  - apply (proj1 (present_non_mapping_is_not_defaulted
                    [("metrics", JNull)] JNull eq_refl)).
    reflexivity.
  - apply (proj2 (present_non_mapping_is_not_defaulted
                    [("state", JNull)] JNull eq_refl)); reflexivity.
Defined.

(** X3.  With a well-shaped [metrics] and a [state] mapping, a
    [testRunDurationMs] that is present and is neither a number nor a
    boolean ([null], a string, an array, a mapping) makes the division by
    1000 raise [TypeError]; a boolean is divided as 0 or 1. *)
Theorem duration_of_non_number (top st : dict json) (v : json) :
  metrics_ok top = true ->
  dict_get "state" top = Some (JDict st) ->
  dict_get "testRunDurationMs" st = Some v ->
  (number v = None ->
   extract_performance_data (JDict top) = Raise TypeError) /\
  (forall b, v = JBool b ->
   exists perf,
     extract_performance_data (JDict top) = Ok (Some perf) /\
     duration_s (overall perf) = JNum ((if b then 1 else 0) / 1000)).
Proof.
  intros Hm Hs Hv.
  rewrite (extract_up_to_state top Hm) by (intros ->; discriminate Hs).
  simpl. rewrite Hs. simpl. rewrite Hv. split.
  - intros Hn. destruct v; try reflexivity; discriminate Hn.
  - intros b ->. eexists. split; reflexivity.
Qed.

Lemma duration_of_non_number_witness :
  extract_performance_data
    (JDict [("state", JDict [("testRunDurationMs", JStr "5000")])])
  = Raise TypeError.
Proof.
  apply (duration_of_non_number
           [("state", JDict [("testRunDurationMs", JStr "5000")])]
           [("testRunDurationMs", JStr "5000")] (JStr "5000"));
    reflexivity.
Defined.

(** X4.  Extraction reads the keys [metrics] and [state] and no other:
    two non-empty mappings that agree on both give the same result, be it
    statistics or an exception. *)
Theorem extract_reads_metrics_and_state_only (top top' : dict json) :
  truthy (JDict top) = true -> truthy (JDict top') = true ->
  dict_get "metrics" top = dict_get "metrics" top' ->
  dict_get "state" top = dict_get "state" top' ->
  extract_performance_data (JDict top) = extract_performance_data (JDict top').
Proof.
  intros Ht Ht' Hm Hs. unfold extract_performance_data.
  rewrite Ht, Ht'. unfold py_get. now rewrite Hm, Hs.
Qed.

Lemma extract_reads_metrics_and_state_only_witness :
  extract_performance_data
    (JDict [("root_group", JNull);
            ("state", JDict [("testRunDurationMs", JNum 5000)])])
  = extract_performance_data state_only_report.
Proof.
  apply extract_reads_metrics_and_state_only; reflexivity.
Defined.

(** ** Extraction: the Endpoint Stats mapping as a dictionary *)

Lemma dict_get_set_same {V : Type} (k : string) (v : V) (d : dict V) :
  dict_get k (dict_set k v d) = Some v.
Proof.
  induction d as [|[k' v'] d IH]; simpl.
  - now rewrite String.eqb_refl.
  - destruct (String.eqb_spec k k') as [->|Hne]; simpl.
    + now rewrite String.eqb_refl.
    + destruct (String.eqb_spec k k'); [contradiction | exact IH].
Qed.

Lemma dict_get_set_other {V : Type} (k k0 : string) (v : V) (d : dict V) :
  k0 <> k -> dict_get k0 (dict_set k v d) = dict_get k0 d.
Proof.
  intros Hne. induction d as [|[k' v'] d IH]; simpl.
  - destruct (String.eqb_spec k0 k); [contradiction | reflexivity].
  - destruct (String.eqb_spec k k') as [->|Hk]; simpl.
    + destruct (String.eqb_spec k0 k'); [contradiction | reflexivity].
    + now rewrite IH.
Qed.

Lemma dict_set_NoDup {V : Type} (k : string) (v : V) (d : dict V) :
  NoDup (keys d) -> NoDup (keys (dict_set k v d)).
Proof.
  intros Hnd. rewrite keys_dict_set_order. unfold add_key.
  destruct (existsb (String.eqb k) (keys d)) eqn:E; [exact Hnd|].
  rewrite <- (rev_involutive (keys d ++ [k])). apply NoDup_rev.
  rewrite rev_app_distr. simpl.
  constructor; [|now apply NoDup_rev].
  rewrite <- in_rev. intros Hin. apply existsb_eqb_In in Hin. congruence.
Qed.

Lemma dict_set_length {V : Type} (k : string) (v : V) (d : dict V) :
  (length (dict_set k v d) <= S (length d))%nat.
Proof.
  induction d as [|[k' v'] d IH]; simpl; [lia|].
  destruct (String.eqb k k'); simpl; lia.
Qed.

Lemma endpoints_from_NoDup (items : list (string * json))
    (acc : dict endpoint_stats) :
  NoDup (keys acc) -> NoDup (keys (endpoints_from items acc)).
Proof.
  revert acc. induction items as [|it rest IH]; intros acc Hnd; [exact Hnd|].
  change (endpoints_from (it :: rest) acc)
    with (endpoints_from rest (endpoints_step acc it)).
  apply IH. unfold endpoints_step.
  destruct (recorded it); [now apply dict_set_NoDup | exact Hnd].
Qed.

Lemma endpoints_from_length (items : list (string * json))
    (acc : dict endpoint_stats) :
  (length (endpoints_from items acc)
   <= length acc + length (filter recorded items))%nat.
Proof.
  revert acc. induction items as [|it rest IH]; intros acc; [simpl; lia|].
  change (endpoints_from (it :: rest) acc)
    with (endpoints_from rest (endpoints_step acc it)).
  specialize (IH (endpoints_step acc it)). unfold endpoints_step in *.
  cbn [filter]. destruct (recorded it); [|exact IH].
  pose proof (dict_set_length (endpoint_of (fst it))
                (record_of (values_of (snd it))) acc).
  simpl length. lia.
Qed.

(** X5.  The Endpoint Stats mapping returned by extraction has pairwise
    distinct endpoint names; it has at most as many entries as there are
    prefixed metrics with a non-empty [values] mapping in the report, and
    exactly as many where these metrics yield distinct identifiers.  Its
    size is the count that the title of the endpoint chart and the
    console summary show as the number of endpoints tested. *)
Theorem endpoint_names_distinct_and_counted (data : json)
    (perf : performance) :
  extract_performance_data data = Ok (Some perf) ->
  exists top, data = JDict top /\
    NoDup (keys (endpoints perf)) /\
    (length (endpoints perf)
     <= length (filter recorded (metrics_of top)))%nat /\
    (NoDup (map (fun item => endpoint_of (fst item))
              (filter recorded (metrics_of top))) ->
     length (endpoints perf) = length (filter recorded (metrics_of top))).
Proof.
  intros H. apply extract_returns in H. destruct H as (top & -> & _ & ->).
  exists top. split; [reflexivity|]. split; [|split].
  - apply endpoints_from_NoDup. constructor.
  - apply (endpoints_from_length (metrics_of top) []).
  - intros Hnd. rewrite (endpoints_from_distinct _ [] Hnd). simpl.
    now rewrite length_map.
Qed.

Lemma endpoint_names_distinct_and_counted_witness :
  exists top, colliding_report = JDict top /\
    NoDup ["a"] /\
    (1 <= length (filter recorded (metrics_of top)))%nat /\
    (NoDup (map (fun item => endpoint_of (fst item))
              (filter recorded (metrics_of top))) ->
     1%nat = length (filter recorded (metrics_of top))).
Proof.
  apply (endpoint_names_distinct_and_counted colliding_report
    (mk_performance
       (mk_overall_stats zero zero zero zero zero zero zero zero zero zero
          (JNum (0 / 1000)) zero zero zero zero zero zero)
       [("a", mk_endpoint_stats (JNum 2) zero zero zero zero zero zero)])).
  reflexivity.
Defined.

Lemma find_app {A : Type} (f : A -> bool) (l1 l2 : list A) :
  find f (l1 ++ l2) =
  match find f l1 with Some x => Some x | None => find f l2 end.
Proof.
  induction l1 as [|x l1 IH]; simpl; [reflexivity|].
  now destruct (f x).
Qed.

Lemma endpoints_from_last (items : list (string * json))
    (acc : dict endpoint_stats) (e : string) :
  dict_get e (endpoints_from items acc) =
  match last_recorded e items with
  | Some item => Some (record_of (values_of (snd item)))
  | None => dict_get e acc
  end.
Proof.
  revert acc. induction items as [|it rest IH]; intros acc; [reflexivity|].
  change (endpoints_from (it :: rest) acc)
    with (endpoints_from rest (endpoints_step acc it)).
  rewrite IH. unfold last_recorded. cbn [rev]. rewrite find_app.
  destruct (find _ (rev rest)) as [x|]; [reflexivity|].
  unfold endpoints_step. cbn [find].
  destruct (recorded it); cbn [andb]; [|reflexivity].
  destruct (String.eqb_spec (endpoint_of (fst it)) e) as [<-|Hne].
  - apply dict_get_set_same.
  - apply dict_get_set_other. congruence.
Qed.

(** X6.  Where several metrics yield one endpoint identifier, the last
    one in scan order wins: the entry of an identifier in Endpoint Stats
    is the record of the last recorded metric that yields it, and there
    is no entry where no recorded metric does. *)
Theorem endpoint_entry_is_last_recorded (data : json) (perf : performance)
    (e : string) :
  extract_performance_data data = Ok (Some perf) ->
  exists top, data = JDict top /\
    dict_get e (endpoints perf) =
    option_map (fun item => record_of (values_of (snd item)))
      (last_recorded e (metrics_of top)).
Proof.
  intros H. apply extract_returns in H. destruct H as (top & -> & _ & ->).
  exists top. split; [reflexivity|].
  rewrite endpoints_from_last. now destruct (last_recorded e (metrics_of top)).
Qed.

Lemma endpoint_entry_is_last_recorded_witness :
  exists top, colliding_report = JDict top /\
    Some (mk_endpoint_stats (JNum 2) zero zero zero zero zero zero) =
    option_map (fun item => record_of (values_of (snd item)))
      (last_recorded "a" (metrics_of top)).
Proof.
  apply (endpoint_entry_is_last_recorded colliding_report
    (mk_performance
       (mk_overall_stats zero zero zero zero zero zero zero zero zero zero
          (JNum (0 / 1000)) zero zero zero zero zero zero)
       [("a", mk_endpoint_stats (JNum 2) zero zero zero zero zero zero)])
    "a").
  reflexivity.
Defined.

(** ** Extraction: every field of Overall Stats *)

Lemma field_path (top : dict json) (name f : string) :
  metrics_ok top = true ->
  field (named_values (metrics_of top) name) f =
  match path ["metrics"; name; "values"; f] (JDict top) with
  | Some v => v
  | None => zero
  end.
Proof.
  intros Hm. destruct (metrics_ok_shape top Hm) as [_ Hms].
  unfold metrics_ok in Hm. unfold metrics_of in *. cbn [path].
  destruct (dict_get "metrics" top) as [m|]; [|reflexivity].
  destruct m as [| | | | |ms]; simpl in Hm; try discriminate.
  unfold named_values. destruct (dict_get name ms) as [en|] eqn:E;
    [|reflexivity].
  apply dict_get_In in E. apply (forallb_In _ _ _ Hms) in E. simpl in E.
  destruct en as [| | | | |fs]; simpl in E; try discriminate.
  unfold values_of. destruct (dict_get "values" fs) as [v|]; [|reflexivity].
  destruct v as [| | | | |vs]; simpl in E; try discriminate.
  unfold field. now destruct (dict_get f vs).
Qed.

(** X7.  On every non-empty Raw Report, each of the sixteen fields of
    the Overall Stats that extraction yields, other than [duration_s], is
    the value found in the report under
    [metrics.<metric>.values.<statistic>], for the metric and statistic
    from which the source reads that field, and is 0 where that path is
    absent; and extraction does yield Overall Stats, unless the division
    of the test duration by 1000 overflows. *)
Theorem overall_fields_follow_their_paths (top : dict json) :
  raw_report (JDict top) = true -> truthy (JDict top) = true ->
  (forall perf,
     extract_performance_data (JDict top) = Ok (Some perf) ->
     Forall (fun source =>
               let '(get, metric, statistic) := source in
               get (overall perf) =
               match path ["metrics"; metric; "values"; statistic] (JDict top)
               with
               | Some v => v
               | None => zero
               end)
       overall_sources) /\
  (duration_fits (JDict top) = true ->
   exists perf, extract_performance_data (JDict top) = Ok (Some perf)).
Proof.
  intros Hshape Ht.
  assert (top <> []) as Hne by (intros ->; discriminate Ht).
  rewrite (extract_raw_report_division top Hshape Hne). split.
  - intros perf Hex.
    destruct (overflows (duration_ms top / 1000)); [discriminate Hex|].
    injection Hex as <-.
    assert (metrics_ok top = true) as Hm.
    { simpl in Hshape. apply andb_prop in Hshape. now destruct Hshape. }
    unfold overall_sources.
    repeat (constructor;
            [cbn [overall overall_of p50 p90 p95 p99 avg min max total_requests
                  requests_per_sec error_rate vus vus_max checks_pass_rate
                  checks_total checks_passed checks_failed];
             apply (field_path top _ _ Hm)|]).
    constructor.
  - intros Hfit. rewrite (duration_fits_false top Hshape Hfit). now eexists.
Qed.

Lemma overall_fields_follow_their_paths_witness :
  (forall perf,
     extract_performance_data fixture_report = Ok (Some perf) ->
     Forall (fun source =>
               let '(get, metric, statistic) := source in
               get (overall perf) =
               match path ["metrics"; metric; "values"; statistic]
                       fixture_report
               with
               | Some v => v
               | None => zero
               end)
       overall_sources) /\
  (duration_fits fixture_report = true ->
   exists perf, extract_performance_data fixture_report = Ok (Some perf)).
Proof.
  apply (overall_fields_follow_their_paths
           [("metrics", JDict [
               ("http_req_duration", JDict [("values", JDict [
                  ("med", JNum 120); ("p(90)", JNum 300);
                  ("p(95)", JNum 450); ("p(99)", JNum 900)])]);
               ("http_reqs", JDict [("values", JDict [
                  ("count", JNum 10000); ("rate", JNum 55.5)])])]);
            ("state", JDict [("testRunDurationMs", JNum 30000)])]);
    reflexivity.
Defined.

(** ** The ranking in the console summary and in the endpoint chart *)

Lemma sorted_app_inv {A : Type} (R : A -> A -> Prop) (l1 l2 : list A) :
  StronglySorted R (l1 ++ l2) ->
  forall a b, In a l1 -> In b l2 -> R a b.
Proof.
  induction l1 as [|x l1 IH]; simpl; intros Hs a b Ha Hb; [destruct Ha|].
  apply StronglySorted_inv in Hs. destruct Hs as [Hs Hx].
  destruct Ha as [<-|Ha].
  - rewrite Forall_forall in Hx. apply Hx. apply in_or_app. now right.
  - now apply IH.
Qed.

Lemma enumerate_fst {A : Type} (l : list A) (start : nat) :
  map fst (enumerate l start) = seq start (length l).
Proof.
  unfold enumerate. revert start.
  induction l as [|x l IH]; intros start; simpl; [reflexivity|].
  now rewrite IH.
Qed.

Lemma enumerate_snd {A : Type} (l : list A) (start : nat) :
  map snd (enumerate l start) = l.
Proof.
  unfold enumerate. revert start.
  induction l as [|x l IH]; intros start; simpl; [reflexivity|].
  now rewrite IH.
Qed.

Lemma enumerate_length {A : Type} (l : list A) (start : nat) :
  length (enumerate l start) = length l.
Proof.
  rewrite <- (length_map fst), enumerate_fst. apply length_seq.
Qed.

Lemma sorted_endpoints_numeric (eps : dict endpoint_stats) :
  numeric_p95 eps = true ->
  sorted_endpoints eps = Some (sorted p95_key true eps).
Proof. intros H. unfold sorted_endpoints. now rewrite H. Qed.

(** X8.  The rows under "Top 5 Slowest Endpoints" are numbered from 1
    without a gap; there are five of them, or as many as there are
    endpoints if these are fewer; they are the head of the ranking; and
    the [p95] field of an endpoint left out is never larger than the
    [p95] field of an endpoint shown. *)
Theorem summary_rows_hold_the_slowest (eps : dict endpoint_stats) :
  numeric_p95 eps = true ->
  exists ranking rows,
    sorted_endpoints eps = Some ranking /\
    summary_rows eps = Some rows /\
    length rows = Nat.min 5 (length eps) /\
    map fst rows = seq 1 (length rows) /\
    map snd rows = firstn 5 ranking /\
    (forall shown left_out,
       In shown (map snd rows) -> In left_out (skipn 5 ranking) ->
       exists q_shown q_left_out,
         number (ep_p95 (snd shown)) = Some q_shown /\
         number (ep_p95 (snd left_out)) = Some q_left_out /\
         q_left_out <= q_shown).
Proof.
  intros Hn. exists (sorted p95_key true eps).
  exists (enumerate (firstn 5 (sorted p95_key true eps)) 1).
  split; [now apply sorted_endpoints_numeric|].
  split.
  { unfold summary_rows, top5. now rewrite (sorted_endpoints_numeric _ Hn). }
  split.
  { rewrite enumerate_length, length_firstn.
    now rewrite <- (Permutation_length (sorted_reverse_perm p95_key eps)). }
  split; [now rewrite enumerate_fst, enumerate_length|].
  split; [apply enumerate_snd|].
  rewrite enumerate_snd. intros shown left_out Hs Hl.
  pose proof (descending_fields _
    (numeric_p95_fields eps _ Hn (sorted_reverse_perm p95_key eps))
    (sorted_reverse_descending p95_key eps)) as Hd.
  rewrite <- (firstn_skipn 5 (sorted p95_key true eps)) in Hd.
  exact (sorted_app_inv _ _ _ Hd shown left_out Hs Hl).
Qed.

Lemma summary_rows_hold_the_slowest_witness :
  exists ranking rows,
    sorted_endpoints tied_endpoints = Some ranking /\
    summary_rows tied_endpoints = Some rows /\
    length rows = Nat.min 5 (length tied_endpoints) /\
    map fst rows = seq 1 (length rows) /\
    map snd rows = firstn 5 ranking /\
    (forall shown left_out,
       In shown (map snd rows) -> In left_out (skipn 5 ranking) ->
       exists q_shown q_left_out,
         number (ep_p95 (snd shown)) = Some q_shown /\
         number (ep_p95 (snd left_out)) = Some q_left_out /\
         q_left_out <= q_shown).
Proof. apply (summary_rows_hold_the_slowest tied_endpoints). reflexivity. Defined.











(** ** The reliability view *)

(** X11.  For numeric rates, the two wedges of the pie of
    [create_error_rate_analysis], [100 - error_rate * 100] and
    [error_rate * 100], add up to 100, and neither is negative exactly
    when the [error_rate] of Overall Stats lies between 0 and 1; the
    checks bar is [checks_pass_rate * 100]. *)
Theorem reliability_wedges (o : overall_stats) (e c : Q) :
  number (error_rate o) = Some e ->
  number (checks_pass_rate o) = Some c ->
  exists success errors checks,
    reliability_rates o = Some (success, errors, checks) /\
    success + errors == 100 /\
    (0 <= success /\ 0 <= errors <-> 0 <= e /\ e <= 1) /\
    checks == c * 100.
Proof.
  intros He Hc. unfold reliability_rates. rewrite He, Hc. cbv zeta.
  do 3 eexists. split; [reflexivity|].
  split; [ring|]. split; [|reflexivity].
  split; intros [H1 H2]; split; lra.
Qed.

Lemma reliability_wedges_witness :
  exists success errors checks,
    reliability_rates
      (mk_overall_stats zero zero zero zero zero zero zero zero zero
         (JNum 0.05) zero zero zero (JNum 0.95) zero zero zero)
    = Some (success, errors, checks) /\
    success + errors == 100 /\
    (0 <= success /\ 0 <= errors <-> 0 <= 0.05 /\ 0.05 <= 1) /\
    checks == 0.95 * 100.
Proof.
  apply (reliability_wedges
           (mk_overall_stats zero zero zero zero zero zero zero zero zero
              (JNum 0.05) zero zero zero (JNum 0.95) zero zero zero));
    reflexivity.
Defined.

(** ** [main] and [load_spike_data] *)



Lemma then_run_Forall (P : event -> Prop) (first next : run) :
  Forall P (fst first) -> Forall P (fst next) ->
  Forall P (fst (then_run first next)).
Proof.
  destruct first as [t [|]]; simpl; intros H1 H2; [|exact H1].
  apply Forall_app. now split.
Qed.

Lemma render_never_failed_to_extract (draw : string -> performance -> bool)
    (file : string) (needs_endpoints : bool) (data : json) :
  Forall (fun e => is_failed_to_extract e = false)
    (fst (render draw file needs_endpoints data)).
Proof.
  unfold render. destruct (extract_performance_data data) as [[perf|]|];
    try constructor.
  destruct (needs_endpoints && _); [constructor|].
  destruct (draw file perf); repeat constructor.
Qed.

Lemma existsb_false_Forall {A : Type} (f : A -> bool) (l : list A) :
  Forall (fun x => f x = false) l -> existsb f l = false.
Proof.
  induction 1 as [|x l Hx Hl IH]; [reflexivity|].
  simpl. now rewrite Hx, IH.
Qed.

(** X12.  Without a usable document [main] draws nothing.  When the file
    is missing, when it is not valid JSON, and when the document loaded
    is falsy (an empty mapping or array, [null], 0), it prints the
    diagnostic of the loader, if any, and the two lines on the failed
    load, saves no file and returns, whatever the plotting backend. *)
Theorem main_without_a_document (draw : string -> performance -> bool)
    (format_summary : performance -> bool) :
  main draw format_summary FileNotFound =
    ([Printed LoadingResults; Printed ErrorNotFound;
      Printed FailedToLoad; Printed HintFileLocation], Returned) /\
  main draw format_summary InvalidJSON =
    ([Printed LoadingResults; Printed ErrorInvalidJSON;
      Printed FailedToLoad; Printed HintFileLocation], Returned) /\
  (forall data, truthy data = false ->
   main draw format_summary (Parsed data) =
     ([Printed LoadingResults; Printed FailedToLoad;
       Printed HintFileLocation], Returned)).
Proof.
  split; [reflexivity|]. split; [reflexivity|].
  intros data Ht. unfold main, load_spike_data. now rewrite Ht.
Qed.

Lemma main_without_a_document_witness :
  main (fun _ _ => true) (fun _ => true) (Parsed (JDict [])) =
    ([Printed LoadingResults; Printed FailedToLoad;
      Printed HintFileLocation], Returned).
Proof.
  apply (main_without_a_document (fun _ _ => true) (fun _ => true)).
  reflexivity.
Defined.

(** X13.  The second guard of [main] never fires: whatever the file, the
    document and the plotting backend, no run prints "Failed to extract
    performance data", because extraction returns nothing only for the
    falsy documents that the first guard has already turned away. *)
Theorem main_never_reports_failed_extraction
    (draw : string -> performance -> bool)
    (format_summary : performance -> bool) (r : read) :
  existsb is_failed_to_extract (fst (main draw format_summary r)) = false.
Proof.
  apply existsb_false_Forall. unfold main.
  destruct (load_spike_data r) as [diagnostic loaded] eqn:El.
  assert (Forall (fun e => is_failed_to_extract e = false)
            (Printed LoadingResults :: diagnostic)) as Hstart.
  { constructor; [reflexivity|].
    destruct r; simpl in El; injection El as <- _; repeat constructor. }
  destruct loaded as [data|]; [|exact Hstart].
  destruct (truthy data) eqn:Ht; cbn [negb].
  - destruct (extract_performance_data data) as [[perf|]|] eqn:Ex.
    + repeat apply then_run_Forall;
        try apply render_never_failed_to_extract.
      * cbn [fst]. apply Forall_app. split; [exact Hstart|].
        repeat constructor.
      * cbn [fst]. repeat constructor.
      * unfold print_performance_summary.
        destruct (format_summary perf); repeat constructor.
    + apply extract_None_iff in Ex. congruence.
    + exact Hstart.
  - cbn [fst]. apply Forall_app. split; [exact Hstart|]. repeat constructor.
Qed.



(** X15.  An exception of the extractor is not caught: on a document for
    which [extract_performance_data] raises, such as a non-empty JSON
    array or a report whose [metrics] is [null], [main] ends with the
    exception after the first line of output, and saves nothing. *)
Theorem main_does_not_catch_extraction_errors
    (draw : string -> performance -> bool)
    (format_summary : performance -> bool) (data : json) (e : exn) :
  extract_performance_data data = Raise e ->
  main draw format_summary (Parsed data) = ([Printed LoadingResults], Uncaught).
Proof.
  intros Hex. unfold main, load_spike_data.
  destruct (truthy data) eqn:Ht; cbn [negb].
  - now rewrite Hex.
  - apply extract_None_iff in Ht. congruence.
Qed.

Lemma main_does_not_catch_extraction_errors_witness :
  main (fun _ _ => true) (fun _ => true) (Parsed (JList [JNum 1]))
  = ([Printed LoadingResults], Uncaught).
Proof.
  apply (main_does_not_catch_extraction_errors (fun _ _ => true)
           (fun _ => true) (JList [JNum 1]) AttributeError).
  reflexivity.
Defined.

Ltac saved_prefix :=
  first
    [ exists 0%nat; left; reflexivity
    | exists 1%nat; left; reflexivity
    | exists 2%nat; left; reflexivity
    | exists 3%nat; left; reflexivity
    | exists 4%nat; left; reflexivity
    | exists 5%nat; left; reflexivity
    | exists 6%nat; left; reflexivity
    | exists 2%nat; right; reflexivity
    | exists 3%nat; right; reflexivity
    | exists 4%nat; right; reflexivity
    | exists 5%nat; right; reflexivity ].

(** X16.  Whatever the file, the document and the behaviour of the
    plotting backend, the files that a run of [main] saves are the first
    few of the six graph files, in the order of the source and each at
    most once, or the first few of the five that remain when the
    endpoint comparison is skipped: no other file is written, and none
    after a renderer has failed. *)
Theorem main_saves_a_prefix_of_the_graphs
    (draw : string -> performance -> bool)
    (format_summary : performance -> bool) (r : read) :
  exists k,
    saved_files (fst (main draw format_summary r)) = firstn k graph_files \/
    saved_files (fst (main draw format_summary r))
    = firstn k graph_files_without_comparison.
Proof.
  unfold main.
  destruct r as [| | |data]; cbn [load_spike_data]; try saved_prefix.
  destruct (truthy data); cbn [negb]; [|saved_prefix].
  unfold create_spike_response_times, create_all_endpoints_comparison,
    create_error_rate_analysis, create_system_capacity_analysis,
    create_response_time_distribution, create_percentile_graph,
    print_performance_summary, render.
  destruct (extract_performance_data data) as [[perf|]|]; try saved_prefix.
  cbn [andb].
  destruct (format_summary perf);
  destruct (endpoints perf);
  destruct (draw "spike_response_times.png" perf);
  destruct (draw "complete_endpoint_performance_comparison.png" perf);
  destruct (draw "error_rate_analysis.png" perf);
  destruct (draw "system_capacity_analysis.png" perf);
  destruct (draw "response_time_distribution_comparison.png" perf);
  destruct (draw "overall_percentile_graph.png" perf);
  cbn; saved_prefix.
Qed.
